(** * Brand sales aggregation: a model of [sales_numbers.py]

    The pipeline of the script (column resolution, money parsing, brand
    classification, grouped summation and ordering) is embedded function by
    function.  Python floats are IEEE-754 binary64 values and are modelled by
    Rocq's primitive [float]; Python strings are modelled by [string]
    (sequences of bytes, the UTF-8 encoding of the text); exceptions are
    values of a result type; the table the caller passes is threaded through
    [aggregate_sales] as a state, since the script writes to it.

    The operations of pandas are modelled by what they compute on the
    tables of this script: [groupby] hands its groups over in ascending
    order of the keys and sums each group in row order, [sort_values]
    orders by the total, larger first, and keeps ties in place. *)

From Stdlib Require Import ZArith List Bool Ascii String Lia Permutation Sorted.
From Stdlib Require Import Floats.
Import ListNotations.

Local Open Scope string_scope.
Local Open Scope list_scope.

(** ** Exceptions and fallible results *)

(** The exceptions the script can raise: [ValueError] (raised by
    [find_sales_columns] and by [float] on a malformed string), [KeyError]
    (raised by [df[...]] on a column that does not exist) and [OverflowError]
    (raised by [float] on an integer beyond the binary64 range). *)
Inductive exn : Type :=
| ValueError (msg : string)
| KeyError (key : string)
| OverflowError (msg : string).

Inductive result (A : Type) : Type :=
| OK (a : A)
| Raise (e : exn).
Arguments OK {A} a.
Arguments Raise {A} e.

Definition bind {A B : Type} (r : result A) (k : A -> result B) : result B :=
  match r with
  | OK a => k a
  | Raise e => Raise e
  end.

Notation "x <- r ;; k" := (bind r (fun x => k))
  (at level 61, r at next level, right associativity).

(** [Series.apply f]: [f] is called on the values in row order; the first
    exception aborts the traversal. *)
Fixpoint apply {A B : Type} (f : A -> result B) (l : list A) : result (list B) :=
  match l with
  | [] => OK []
  | x :: l' => y <- f x ;; ys <- apply f l' ;; OK (y :: ys)
  end.

(** ** Strings *)

(** The string methods the script uses.  Letters and white space are those
    of ASCII; the bytes of any other character are left as they are. *)
Module Str.

Definition is_digit (c : ascii) : bool :=
  let n := nat_of_ascii c in (48 <=? n)%nat && (n <=? 57)%nat.

(** ASCII whitespace, as [str.strip] and the regex class [\s] see it:
    tab, line feed, vertical tab, form feed, carriage return, the four
    separators 0x1c-0x1f and the space. *)
Definition is_space (c : ascii) : bool :=
  let n := nat_of_ascii c in
  ((9 <=? n)%nat && (n <=? 13)%nat) || ((28 <=? n)%nat && (n <=? 32)%nat).

Definition lower_char (c : ascii) : ascii :=
  let n := nat_of_ascii c in
  if (65 <=? n)%nat && (n <=? 90)%nat then ascii_of_nat (n + 32) else c.

(** [str.lower] on the ASCII letters; other bytes are kept. *)
Fixpoint lower (s : string) : string :=
  match s with
  | EmptyString => EmptyString
  | String c s' => String (lower_char c) (lower s')
  end.

Fixpoint lstrip (s : string) : string :=
  match s with
  | EmptyString => EmptyString
  | String c s' => if is_space c then lstrip s' else s
  end.

Fixpoint rstrip (s : string) : string :=
  match s with
  | EmptyString => EmptyString
  | String c s' =>
      match rstrip s' with
      | EmptyString => if is_space c then EmptyString else String c EmptyString
      | r => String c r
      end
  end.

(** [str.strip()] *)
Definition strip (s : string) : string := rstrip (lstrip s).

Fixpoint filter (p : ascii -> bool) (s : string) : string :=
  match s with
  | EmptyString => EmptyString
  | String c s' => if p c then String c (filter p s') else filter p s'
  end.

Fixpoint forallb (p : ascii -> bool) (s : string) : bool :=
  match s with
  | EmptyString => true
  | String c s' => p c && forallb p s'
  end.

(** The text before the first occurrence of [d], and the text after it
    when [d] occurs. *)
Fixpoint split_at (d : ascii) (s : string) : string * option string :=
  match s with
  | EmptyString => (EmptyString, None)
  | String c s' =>
      if Ascii.eqb c d then (EmptyString, Some s')
      else let (a, b) := split_at d s' in (String c a, b)
  end.

(** The value of a string of decimal digits, most significant first. *)
Fixpoint digits_value (acc : Z) (s : string) : Z :=
  match s with
  | EmptyString => acc
  | String c s' => digits_value (10 * acc + (Z.of_nat (nat_of_ascii c) - 48)) s'
  end.

(** [s] without its prefix [p], when [p] is a prefix of [s]. *)
Fixpoint drop_prefix (p s : string) : option string :=
  match p, s with
  | EmptyString, _ => Some s
  | String a p', String b s' => if Ascii.eqb a b then drop_prefix p' s' else None
  | String _ _, EmptyString => None
  end.

End Str.

(** ** Floats *)

Module Flt.

(** The binary64 value nearest to [n / 10^k] (ties to even), for [n >= 0]:
    what [float] returns on a decimal literal with digits [n] of which [k]
    follow the period.  The quotient is rounded once, by the IEEE division
    of [SpecFloat] applied to the two integers. *)
Definition of_decimal (n : Z) (k : nat) : float :=
  match n with
  | Zpos p =>
      SF2Prim (SFdiv prec emax (S754_finite false p 0)
                               (S754_finite false (Z.to_pos (10 ^ Z.of_nat k)) 0))
  | _ => 0%float
  end.

End Flt.

(** ** Python values and their conversions *)

(** A cell of a report as Python sees it: [None], an integer, a float
    (a missing cell of a CSV file is read as the float NaN) or a string. *)
Inductive cell : Type :=
| PyNone
| PyInt (z : Z)
| PyFloat (f : float)
| PyStr (s : string).

(** [pd.isna] on a scalar. *)
Definition pd_isna (value : cell) : bool :=
  match value with
  | PyNone => true
  | PyFloat f => is_nan f
  | _ => false
  end.

(** Printing, for [str(sku)]. *)
Module Repr.

Definition digit_char (d : Z) : ascii := ascii_of_nat (48 + Z.to_nat d).

Fixpoint digits_of (fuel : nat) (n : Z) (acc : string) : string :=
  match fuel with
  | O => acc
  | S fuel' =>
      let acc' := String (digit_char (n mod 10)) acc in
      if (n <? 10)%Z then acc' else digits_of fuel' (n / 10) acc'
  end.

(** The decimal digits of [n >= 0]. *)
Definition of_nonneg (n : Z) : string :=
  digits_of (S (Z.to_nat (Z.log2 n))) n EmptyString.

(** [str] of an integer. *)
Definition of_int (z : Z) : string :=
  if (z <? 0)%Z then "-" ++ of_nonneg (- z) else of_nonneg z.

Fixpoint zeros (n : nat) : string :=
  match n with
  | O => EmptyString
  | S n' => String "0" (zeros n')
  end.

(** [x * 10^(-s)] for the fraction [x = n / d]. *)
Definition scaled (x : Z * Z) (s : Z) : Z * Z :=
  let (n, d) := x in
  if (0 <=? s)%Z then (n, d * 10 ^ s)%Z else (n * 10 ^ (- s), d)%Z.

(** The largest [k] at most the start value with [10^k <= x]. *)
Fixpoint floor_log10 (fuel : nat) (k : Z) (x : Z * Z) : Z :=
  match fuel with
  | O => k
  | S fuel' =>
      let (n, d) := scaled x k in
      if (d <=? n)%Z then k else floor_log10 fuel' (k - 1) x
  end.

(** The float that [float] reads from the digits [c] scaled by [10^s]. *)
Definition read (c s : Z) : float :=
  if (0 <=? s)%Z then Flt.of_decimal (c * 10 ^ s) 0
  else Flt.of_decimal c (Z.to_nat (- s)).

(** The shortest decimal [c * 10^s] that reads back as [f], the nearest
    to [x] when two of that length do (the one with the even last digit
    when [x] lies half way); [n] counts the digits tried. *)
Fixpoint shortest (fuel : nat) (n : Z) (k : Z) (x : Z * Z) (f : float) : Z * Z :=
  let s := (k - n + 1)%Z in
  let (a, b) := scaled x s in
  let lo := (a / b)%Z in
  let hi := (lo + 1)%Z in
  let nearest :=
    match (2 * (a - lo * b) ?= b)%Z with
    | Lt => lo
    | Eq => if Z.even lo then lo else hi
    | Gt => hi
    end in
  match fuel with
  | O => (nearest, s)
  | S fuel' =>
      match PrimFloat.eqb (read lo s) f, PrimFloat.eqb (read hi s) f with
      | true, true => (nearest, s)
      | true, false => (lo, s)
      | false, true => (hi, s)
      | false, false => shortest fuel' (n + 1) k x f
      end
  end.

Fixpoint strip_zeros (fuel : nat) (c s : Z) : Z * Z :=
  match fuel with
  | O => (c, s)
  | S fuel' => if (c mod 10 =? 0)%Z then strip_zeros fuel' (c / 10) (s + 1) else (c, s)
  end.

Definition pad2 (n : Z) : string :=
  if (n <? 10)%Z then "0" ++ of_nonneg n else of_nonneg n.

(** The text of the digits [ds] with the decimal point after the first
    [decpt] of them: plain notation for [-4 < decpt <= 16], scientific
    notation otherwise. *)
Definition layout (ds : string) (decpt : Z) : string :=
  let n := Z.of_nat (String.length ds) in
  if ((-4 <? decpt) && (decpt <=? 16))%Z then
    if (decpt <=? 0)%Z then "0." ++ zeros (Z.to_nat (- decpt)) ++ ds
    else if (n <=? decpt)%Z then ds ++ zeros (Z.to_nat (decpt - n)) ++ ".0"
    else substring 0 (Z.to_nat decpt) ds ++ "." ++
         substring (Z.to_nat decpt) (Z.to_nat (n - decpt)) ds
  else
    let e := (decpt - 1)%Z in
    substring 0 1 ds ++
    (if (1 <? n)%Z then "." ++ substring 1 (Z.to_nat (n - 1)) ds else "") ++
    "e" ++ (if (e <? 0)%Z then "-" else "+") ++ pad2 (Z.abs e).

(** [repr] of a float: the shortest decimal text that reads back as it. *)
Definition of_float (f : float) : string :=
  match Prim2SF f with
  | S754_nan => "nan"
  | S754_infinity s => if s then "-inf" else "inf"
  | S754_zero s => if s then "-0.0" else "0.0"
  | S754_finite sg m e =>
      let x := if (0 <=? e)%Z then (Zpos m * 2 ^ e, 1)%Z else (Zpos m, 2 ^ (- e))%Z in
      let k := floor_log10 640 308 x in
      let (c0, s0) := shortest 16 1 k x (abs f) in
      let (c, s) := strip_zeros 20 c0 s0 in
      let ds := of_nonneg c in
      (if sg then "-" else "") ++ layout ds (Z.of_nat (String.length ds) + s)
  end.

End Repr.

(** [str(value)] *)
Definition py_str (value : cell) : string :=
  match value with
  | PyNone => "None"
  | PyInt z => Repr.of_int z
  | PyFloat f => Repr.of_float f
  | PyStr s => s
  end.

(** [float(z)] for an integer: the nearest binary64 value, ties to even;
    an integer that rounds beyond the largest finite float is refused. *)
Definition float_of_int (z : Z) : result float :=
  match binary_normalize prec emax z 0 false with
  | S754_infinity _ => Raise (OverflowError "int too large to convert to float")
  | sf => OK (SF2Prim sf)
  end.

Definition is_money_char (c : ascii) : bool :=
  Str.is_digit c || Ascii.eqb c ".".

(** [float(clean)] for a text made of decimal digits and periods only, the
    texts [parse_money] passes: digits with at most one period and at least
    one digit are read as a decimal number; any other text is refused. *)
Definition float_of_clean (clean : string) : result float :=
  let (int_part, rest) := Str.split_at "." clean in
  let frac_part := match rest with Some r => r | None => EmptyString end in
  if Str.forallb Str.is_digit int_part && Str.forallb Str.is_digit frac_part
     && negb (String.eqb (int_part ++ frac_part) EmptyString)
  then OK (Flt.of_decimal (Str.digits_value 0 (int_part ++ frac_part))
                          (String.length frac_part))
  else Raise (ValueError ("could not convert string to float: '" ++ clean ++ "'")).

(** ** Money parser *)

(** [parse_money(value)].  A value that is not a string goes to [float];
    [None] never gets there, [pd.isna] holds of it. *)
Definition parse_money (value : cell) : result float :=
  if pd_isna value then OK 0%float
  else
    match value with
    | PyStr s =>
        let clean := Str.filter is_money_char s in
        if String.eqb clean EmptyString then OK 0%float else float_of_clean clean
    | PyInt z => float_of_int z
    | PyFloat f => OK f
    | PyNone => OK 0%float
    end.

(** ** Brand classifier *)

(** The rules, in the order the dictionary literal lists them. *)
Definition BRAND_MAP : list (string * string) :=
  [ ("^TH_", "Theonia EU");
    ("^EU-PG-", "PupGrade EU");
    ("^EU-PC-B-", "Cosy House EU") ].

(** [re.match(pattern, s)] for a pattern made of an optional [^] and
    literal characters, as the patterns of [BRAND_MAP] are: the literal text
    has to start [s]. *)
Definition re_match (pattern s : string) : bool :=
  let literal :=
    match pattern with
    | String "^" p => p
    | p => p
    end in
  match Str.drop_prefix literal s with
  | Some _ => true
  | None => false
  end.

(** The loop of [detect_brand] over a list of rules. *)
Fixpoint first_match (rules : list (string * string)) (sku : string) : string :=
  match rules with
  | [] => "Other"
  | (pattern, brand) :: rules' =>
      if re_match pattern sku then brand else first_match rules' sku
  end.

(** [detect_brand(sku)] *)
Definition detect_brand (sku : cell) : string :=
  first_match BRAND_MAP (py_str sku).

(** ** Tables *)

Definition Series : Type := list cell.

(** A [DataFrame]: its columns in order, each a name and the values of the
    rows. *)
Definition DataFrame : Type := list (string * Series).

Definition columns (df : DataFrame) : list string := map fst df.

(** [len(df.index)] *)
Definition nrows (df : DataFrame) : nat :=
  match df with
  | [] => O
  | (_, s) :: _ => List.length s
  end.

(** Every column has one value per row. *)
Definition rectangular (df : DataFrame) : bool :=
  forallb (fun c => Nat.eqb (List.length (snd c)) (nrows df)) df.

(** [df[key]] *)
Fixpoint getitem (df : DataFrame) (key : string) : result Series :=
  match df with
  | [] => Raise (KeyError key)
  | (name, s) :: df' => if String.eqb name key then OK s else getitem df' key
  end.

(** [df[key] = s]: an existing column is replaced in place, a new one is
    added after the others. *)
Fixpoint setitem (df : DataFrame) (key : string) (s : Series) : DataFrame :=
  match df with
  | [] => [(key, s)]
  | (name, s0) :: df' =>
      if String.eqb name key then (name, s) :: df'
      else (name, s0) :: setitem df' key s
  end.

(** ** Column resolver *)

(** [re.match(r'ordered product sales\s*[–-]\s*b2b', name, re.I)]: the
    words, optional white space, an en dash or a hyphen, optional white
    space, then [b2b], at the start of [name], letters compared without
    case. *)
Definition match_b2b (name : string) : bool :=
  match Str.drop_prefix "ordered product sales" (Str.lower name) with
  | None => false
  | Some r1 =>
      let r2 := Str.lstrip r1 in
      let after_dash :=
        match Str.drop_prefix "–" r2 with
        | Some r3 => Some r3
        | None => Str.drop_prefix "-" r2
        end in
      match after_dash with
      | None => false
      | Some r3 =>
          match Str.drop_prefix "b2b" (Str.lstrip r3) with
          | Some _ => true
          | None => false
          end
      end
  end.

(** One turn of the loop of [find_sales_columns]. *)
Definition scan_column (found : option string * option string) (col : string)
  : option string * option string :=
  let (total_col, b2b_col) := found in
  let name := Str.lower (Str.strip col) in
  (if String.eqb name "ordered product sales" then Some col else total_col,
   if match_b2b name then Some col else b2b_col).

Definition missing_column : exn :=
  ValueError "Couldn't find 'Ordered Product Sales' column.".

(** [find_sales_columns(df)] *)
Definition find_sales_columns (df : DataFrame) : result (string * option string) :=
  let (total_col, b2b_col) := fold_left scan_column (columns df) (None, None) in
  match total_col with
  | None => Raise missing_column
  | Some c => OK (c, b2b_col)
  end.

(** ** Grouping and ordering *)

Record SummaryRow : Type := mkRow {
  Brand : string;
  Consumer_Sales : float;
  B2B_Sales : float;
  Total_Sales : float
}.

Definition Summary : Type := list SummaryRow.

(** The values of [xs] in the rows whose key is [key]. *)
Definition select {A : Type} (key : string) (keys : list string) (xs : list A) : list A :=
  map snd (filter (fun p => String.eqb (fst p) key) (combine keys xs)).

(** The sum of a group, as [groupby(...).sum()] takes it: the values are
    added in row order, starting from [0.0]; NaN values are skipped.  (The
    compensation term that recent versions of pandas carry along plays no
    part in a group of one or two rows; it is not modelled.) *)
Definition group_sum (xs : list float) : float :=
  fold_left (fun acc x => if is_nan x then acc else (acc + x)%float) xs 0%float.

Fixpoint insert_key (k : string) (l : list string) : list string :=
  match l with
  | [] => [k]
  | h :: t =>
      match String.compare k h with
      | Eq => l
      | Lt => k :: l
      | Gt => h :: insert_key k t
      end
  end.

(** The distinct keys in ascending order ([groupby] sorts its keys). *)
Definition group_keys (keys : list string) : list string :=
  fold_right insert_key [] keys.

(** [df.groupby('Brand')[[...]].sum()] with the renamed columns. *)
Definition groupby_sum (brand : list string) (consumer b2b total : list float) : Summary :=
  map (fun k => mkRow k (group_sum (select k brand consumer))
                        (group_sum (select k brand b2b))
                        (group_sum (select k brand total)))
      (group_keys brand).

Fixpoint insert_desc (r : SummaryRow) (l : Summary) : Summary :=
  match l with
  | [] => [r]
  | y :: l' =>
      if (Total_Sales r <? Total_Sales y)%float then y :: insert_desc r l'
      else r :: l
  end.

(** [sort_values('Total Sales', ascending=False)]: largest total first,
    rows of equal total in the order they had, rows whose total is NaN
    last.  (A summary has at most four rows, one per label; at this size
    the default sort of numpy is an insertion sort, which keeps rows of
    equal total in their order.) *)
Definition sort_values_desc (rows : Summary) : Summary :=
  fold_right insert_desc [] (filter (fun r => negb (is_nan (Total_Sales r))) rows)
  ++ filter (fun r => is_nan (Total_Sales r)) rows.

(** ** Aggregator *)

(** A computation on the caller's table: it may change the table, and
    ends with a value or an exception; the changes made before an
    exception stay. *)
Definition M (A : Type) : Type := DataFrame -> DataFrame * result A.

Definition ret {A : Type} (a : A) : M A := fun df => (df, OK a).

Definition bindM {A B : Type} (m : M A) (k : A -> M B) : M B :=
  fun df =>
    match m df with
    | (df', OK a) => k a df'
    | (df', Raise e) => (df', Raise e)
    end.

Notation "x <~ m ;; k" := (bindM m (fun x => k))
  (at level 61, m at next level, right associativity).

(** A computation that reads the table. *)
Definition reading {A : Type} (f : DataFrame -> result A) : M A :=
  fun df => (df, f df).

(** [df[key] = values] *)
Definition assign (key : string) (values : Series) : M unit :=
  fun df => (setitem df key values, OK tt).

(** [df[col].apply(parse_money)] *)
Definition parse_column (col : string) : M (list float) :=
  reading (fun df => s <- getitem df col ;; apply parse_money s).

(** Addition of two float columns, row by row. *)
Fixpoint series_add (a b : list float) : list float :=
  match a, b with
  | x :: a', y :: b' => (x + y)%float :: series_add a' b'
  | _, _ => []
  end.

(** [aggregate_sales(df)].  The columns the source reads back from the
    table ([df['__sales_consumer'] + df['__sales_b2b']], the grouping over
    the new columns) are the values it has just assigned; the model keeps
    them under local names.  [if b2b_col:] tests for [None]: a column name
    that matches the B2B pattern is not empty. *)
Definition aggregate_sales : M Summary :=
  cols <~ reading find_sales_columns ;;
  let (total_col, b2b_col) := (cols : string * option string) in
  consumer <~ parse_column total_col ;;
  _ <~ assign "__sales_consumer" (map PyFloat consumer) ;;
  b2b <~ match b2b_col with
         | Some c => parse_column c
         | None => reading (fun df => OK (repeat 0%float (nrows df)))
         end ;;
  _ <~ assign "__sales_b2b" (map PyFloat b2b) ;;
  let total := series_add consumer b2b in
  _ <~ assign "__sales_total" (map PyFloat total) ;;
  sku <~ reading (fun df => getitem df "SKU") ;;
  let brand := map detect_brand sku in
  _ <~ assign "Brand" (map PyStr brand) ;;
  ret (sort_values_desc (groupby_sum brand consumer b2b total)).

(** ** The page *)

(** Number formatting, for the metric tiles. *)
Module Fmt.

(** The hundredths of [m * 2^e], rounded to the nearest integer, ties to
    even: the digits that [format(x, '.2f')] prints for [|x| = m * 2^e]. *)
Definition cents (m : positive) (e : Z) : Z :=
  if (0 <=? e)%Z then (Zpos m * 2 ^ e * 100)%Z
  else
    let den := (2 ^ (- e))%Z in
    let num := (Zpos m * 100)%Z in
    let q := (num / den)%Z in
    match (2 * (num mod den) ?= den)%Z with
    | Lt => q
    | Eq => if Z.even q then q else (q + 1)%Z
    | Gt => (q + 1)%Z
    end.

(** The digits [s], of which [remaining] are left, with a comma before
    every group of three counted from the right. *)
Fixpoint group_from (remaining : nat) (s : string) : string :=
  match s with
  | EmptyString => EmptyString
  | String c s' =>
      let left := Nat.pred remaining in
      String c (if negb (Nat.eqb left 0) && Nat.eqb (Nat.modulo left 3) 0
                then String "," (group_from left s')
                else group_from left s')
  end.

Definition group (s : string) : string := group_from (String.length s) s.

(** [format(f, ',.2f')] *)
Definition fixed2 (f : float) : string :=
  match Prim2SF f with
  | S754_nan => "nan"
  | S754_infinity s => if s then "-inf" else "inf"
  | S754_zero s => if s then "-0.00" else "0.00"
  | S754_finite s m e =>
      let n := cents m e in
      (if s then "-" else "") ++ group (Repr.of_nonneg (n / 100)) ++ "." ++
      String (Repr.digit_char (n mod 100 / 10))
             (String (Repr.digit_char (n mod 10)) EmptyString)
  end.

End Fmt.

(** The text of an exception. *)
Module Exn.

Definition hex_char (n : nat) : ascii :=
  if (n <? 10)%nat then ascii_of_nat (48 + n) else ascii_of_nat (87 + n).

Fixpoint contains (c : ascii) (s : string) : bool :=
  match s with
  | EmptyString => false
  | String a s' => Ascii.eqb a c || contains c s'
  end.

(** The characters of [s] as [repr] writes them between quotes [q]. *)
Fixpoint escape (q : ascii) (s : string) : string :=
  match s with
  | EmptyString => EmptyString
  | String c s' =>
      let n := nat_of_ascii c in
      (if Ascii.eqb c "\" then "\\"
       else if Ascii.eqb c q then String "\" (String c EmptyString)
       else if Nat.eqb n 9 then "\t"
       else if Nat.eqb n 10 then "\n"
       else if Nat.eqb n 13 then "\r"
       else if (n <? 32)%nat || Nat.eqb n 127
            then String "\" (String "x" (String (hex_char (n / 16))
                                                (String (hex_char (n mod 16)) EmptyString)))
       else String c EmptyString) ++ escape q s'
  end.

(** [repr] of a string: single quotes, unless the text has a single quote
    and no double quote. *)
Definition repr_str (s : string) : string :=
  let q := if contains "'" s && negb (contains "034" s) then "034"%char else "'"%char in
  String q (escape q s ++ String q EmptyString).

(** [str(e)]: the message of a [ValueError] or an [OverflowError], the
    [repr] of the key of a [KeyError]. *)
Definition text (e : exn) : string :=
  match e with
  | ValueError msg => msg
  | KeyError key => repr_str key
  | OverflowError msg => msg
  end.

End Exn.

(** What the page puts on the screen. *)
Inductive widget : Type :=
| st_success (body : string)
| st_subheader (body : string)
| st_dataframe (data : Summary)
| st_metric (label value : string)
| st_error (body : string)
| st_info (body : string).

(** The tiles of the loop over [summary_df.iterrows()]. *)
Definition metrics (summary_df : Summary) : list widget :=
  map (fun row => st_metric (Brand row) ("€" ++ Fmt.fixed2 (Total_Sales row)))
      summary_df.

(** The [try] block of the page, from the table [load_report] has read:
    the widgets shown, and the table as the block leaves it. *)
Definition report (df : DataFrame) : DataFrame * list widget :=
  match aggregate_sales df with
  | (df', OK summary_df) =>
      (df', [st_success "Report processed!";
             st_subheader "Sales by Brand";
             st_dataframe summary_df;
             st_subheader "Key Metrics"] ++ metrics summary_df)
  | (df', Raise e) =>
      (df', [st_error ("Error processing file: " ++ Exn.text e)])
  end.

(** The page below the uploader: [uploaded] is the table read from the
    file, if a file has been uploaded. *)
Definition page (uploaded : option DataFrame) : list widget :=
  match uploaded with
  | Some df => snd (report df)
  | None => [st_info "⬆️ Upload a CSV to begin."]
  end.

(** ** Notions used to state the properties *)

(** The two parsed money columns, read from the table the caller passes:
    the amounts the aggregator computes before it looks at the SKUs. *)
Definition parsed_amounts (df : DataFrame) : result (list float * list float) :=
  cols <- find_sales_columns df ;;
  let (total_col, b2b_col) := (cols : string * option string) in
  consumer <- (s <- getitem df total_col ;; apply parse_money s) ;;
  b2b <- match b2b_col with
         | Some c => s <- getitem df c ;; apply parse_money s
         | None =>
             OK (repeat 0%float
                   (nrows (setitem df "__sales_consumer" (map PyFloat consumer))))
         end ;;
  OK (consumer, b2b).

(** The rows as the aggregator sees them: the brand of every row and its
    two parsed amounts. *)
Definition parsed_rows (df : DataFrame)
  : result (list string * list float * list float) :=
  amounts <- parsed_amounts df ;;
  sku <- getitem df "SKU" ;;
  OK (map detect_brand sku, fst amounts, snd amounts).

(** The table once the three sales columns are set. *)
Definition with_amounts (df : DataFrame) (consumer b2b : list float) : DataFrame :=
  setitem
    (setitem
       (setitem df "__sales_consumer" (map PyFloat consumer))
       "__sales_b2b" (map PyFloat b2b))
    "__sales_total" (map PyFloat (series_add consumer b2b)).

(** The table after a call that went through. *)
Definition with_sales_columns (df : DataFrame) (brand : list string)
    (consumer b2b : list float) : DataFrame :=
  setitem (with_amounts df consumer b2b) "Brand" (map PyStr brand).

(** The column name is recognised as the consumer sales column. *)
Definition is_total_column (col : string) : bool :=
  String.eqb (Str.lower (Str.strip col)) "ordered product sales".

(** The column name is recognised as the B2B sales column. *)
Definition is_b2b_column (col : string) : bool :=
  match_b2b (Str.lower (Str.strip col)).

Fixpoint count_char (c : ascii) (s : string) : nat :=
  match s with
  | EmptyString => O
  | String a s' => (if Ascii.eqb a c then 1 else 0) + count_char c s'
  end.

Fixpoint has_digit (s : string) : bool :=
  match s with
  | EmptyString => false
  | String a s' => Str.is_digit a || has_digit s'
  end.

(** A text of digits and periods that is a decimal number: at most one
    period, at least one digit. *)
Definition decimal_number (clean : string) : bool :=
  (count_char "." clean <=? 1)%nat && has_digit clean.



(** The order of the brand labels: the order of Python strings. *)
Definition label_lt (a b : string) : Prop := String.compare a b = Lt.






(** ** String facts *)

Lemma drop_prefix_spec (p s r : string) :
  Str.drop_prefix p s = Some r <-> s = (p ++ r)%string.
Proof.
  revert s; induction p as [|a p IH]; intros s; simpl.
  - split; intros H; [injection H as ->; reflexivity | subst; reflexivity].
  - destruct s as [|b s].
    + split; intros H; discriminate H.
    + destruct (Ascii.eqb_spec a b) as [->|Hab].
      * rewrite IH. split; intros H; [subst; reflexivity | injection H as ->; reflexivity].
      * split; intros H; [discriminate H | injection H as E _; congruence].
Qed.

Lemma re_match_caret (lit s : string) :
  re_match (String "^" lit) s = true <-> exists rest, s = (lit ++ rest)%string.
Proof.
  unfold re_match.
  destruct (Str.drop_prefix lit s) as [r|] eqn:E.
  - apply drop_prefix_spec in E. split; intros _; [exists r; exact E | reflexivity].
  - split; intros H; [discriminate H|].
    destruct H as [rest Hrest].
    apply drop_prefix_spec in Hrest. congruence.
Qed.

Lemma first_match_skip (pre : list (string * string)) (rules : list (string * string))
    (s : string) :
  (forall q, In q pre -> re_match (fst q) s = false) ->
  first_match (pre ++ rules) s = first_match rules s.
Proof.
  induction pre as [|[p b] pre IH]; intros H; simpl.
  - reflexivity.
  - pose proof (H (p, b) (or_introl eq_refl)) as Hp. simpl in Hp. rewrite Hp.
    apply IH. intros q Hq. apply H. right. exact Hq.
Qed.

(** ** C5: the brand classifier *)

(** C5. [detect_brand] returns the label of the first rule of [BRAND_MAP]
    whose prefix starts the SKU, compared with case, and ["Other"] when no
    rule matches: the four sample SKUs get their labels, a lower-case
    prefix is not recognised, each label is returned exactly for the SKUs
    with its prefix, and in any ordered rule list a SKU that matches
    several rules gets the label of the earliest of them. *)
Theorem detect_brand_first_match :
  detect_brand (PyStr "TH_001") = "Theonia EU" /\
  detect_brand (PyStr "EU-PG-55") = "PupGrade EU" /\
  detect_brand (PyStr "EU-PC-B-9") = "Cosy House EU" /\
  detect_brand (PyStr "XYZ") = "Other" /\
  detect_brand (PyStr "th_001") = "Other" /\
  detect_brand (PyStr "xTH_001") = "Other" /\
  (forall sku,
      (detect_brand sku = "Theonia EU" <-> exists rest, py_str sku = ("TH_" ++ rest)%string) /\
      (detect_brand sku = "PupGrade EU" <-> exists rest, py_str sku = ("EU-PG-" ++ rest)%string) /\
      (detect_brand sku = "Cosy House EU" <-> exists rest, py_str sku = ("EU-PC-B-" ++ rest)%string) /\
      (detect_brand sku = "Other" <->
         ~ (exists rest, py_str sku = ("TH_" ++ rest)%string) /\
         ~ (exists rest, py_str sku = ("EU-PG-" ++ rest)%string) /\
         ~ (exists rest, py_str sku = ("EU-PC-B-" ++ rest)%string))) /\
  (forall pre pattern brand post s,
      (forall q, In q pre -> re_match (fst q) s = false) ->
      re_match pattern s = true ->
      first_match (pre ++ (pattern, brand) :: post) s = brand) /\
  (forall rules s,
      (forall q, In q rules -> re_match (fst q) s = false) ->
      first_match rules s = "Other") /\
  first_match [("^EU-", "Europe"); ("^EU-PG-", "PupGrade EU")] "EU-PG-55" = "Europe".
Proof.
  repeat (split; [reflexivity|]).
  split; [|split; [|split; [|reflexivity]]].
  - intros sku. unfold detect_brand, BRAND_MAP, first_match.
    pose proof (re_match_caret "TH_" (py_str sku)) as H1.
    pose proof (re_match_caret "EU-PG-" (py_str sku)) as H2.
    pose proof (re_match_caret "EU-PC-B-" (py_str sku)) as H3.
    assert (D12 : (exists rest, py_str sku = ("TH_" ++ rest)%string) ->
                  (exists rest, py_str sku = ("EU-PG-" ++ rest)%string) -> False).
    { intros [r1 E1] [r2 E2]. rewrite E1 in E2. discriminate E2. }
    assert (D13 : (exists rest, py_str sku = ("TH_" ++ rest)%string) ->
                  (exists rest, py_str sku = ("EU-PC-B-" ++ rest)%string) -> False).
    { intros [r1 E1] [r2 E2]. rewrite E1 in E2. discriminate E2. }
    assert (D23 : (exists rest, py_str sku = ("EU-PG-" ++ rest)%string) ->
                  (exists rest, py_str sku = ("EU-PC-B-" ++ rest)%string) -> False).
    { intros [r1 E1] [r2 E2]. rewrite E1 in E2. discriminate E2. }
    destruct (re_match "^TH_" (py_str sku)) eqn:M1;
      destruct (re_match "^EU-PG-" (py_str sku)) eqn:M2;
      destruct (re_match "^EU-PC-B-" (py_str sku)) eqn:M3;
      repeat split; intros; try discriminate; try tauto;
      try (exfalso; tauto).
  - intros pre pattern brand post s Hpre Hp.
    rewrite first_match_skip by exact Hpre.
    simpl. rewrite Hp. reflexivity.
  - intros rules s H.
    rewrite <- (app_nil_r rules). rewrite first_match_skip by exact H. reflexivity.
Qed.

(** ** The money parser on strings *)

Lemma filter_money_chars (s : string) :
  Str.forallb is_money_char (Str.filter is_money_char s) = true.
Proof.
  induction s as [|c s IH]; simpl; [reflexivity|].
  destruct (is_money_char c) eqn:E; simpl; [rewrite E|]; exact IH.
Qed.

Lemma money_char_cases (c : ascii) :
  is_money_char c = true ->
  (Ascii.eqb c "." = true /\ Str.is_digit c = false) \/
  (Ascii.eqb c "." = false /\ Str.is_digit c = true).
Proof.
  unfold is_money_char. intros H.
  destruct (Ascii.eqb c ".") eqn:E.
  - left. apply Ascii.eqb_eq in E. subst c. split; reflexivity.
  - right. split; [reflexivity|]. rewrite orb_false_r in H. exact H.
Qed.

Lemma digits_no_period (s : string) :
  Str.forallb is_money_char s = true ->
  Str.forallb Str.is_digit s = (count_char "." s =? 0)%nat.
Proof.
  induction s as [|c s IH]; simpl; [reflexivity|].
  intros H. apply andb_prop in H. destruct H as [Hc Hs].
  destruct (money_char_cases c Hc) as [[E D]|[E D]]; rewrite E, D; simpl.
  - reflexivity.
  - apply IH. exact Hs.
Qed.

Lemma digits_nonempty (s : string) :
  Str.forallb Str.is_digit s = true ->
  has_digit s = negb (String.eqb s EmptyString).
Proof.
  destruct s as [|c s]; simpl; [reflexivity|].
  intros H. apply andb_prop in H. destruct H as [Hc _]. rewrite Hc. reflexivity.
Qed.

Lemma has_digit_app (a b : string) :
  has_digit (a ++ b) = has_digit a || has_digit b.
Proof.
  induction a as [|c a' IH]; simpl; [reflexivity|].
  rewrite IH. apply orb_assoc.
Qed.

Lemma forallb_digit_app (a b : string) :
  Str.forallb Str.is_digit (a ++ b) =
  Str.forallb Str.is_digit a && Str.forallb Str.is_digit b.
Proof.
  induction a as [|c a' IH]; simpl; [reflexivity|].
  rewrite IH. apply andb_assoc.
Qed.

(** What [split_at] finds in a text of digits and periods. *)
Lemma split_at_money (s : string) :
  Str.forallb is_money_char s = true ->
  Str.forallb Str.is_digit (fst (Str.split_at "." s)) = true /\
  match snd (Str.split_at "." s) with
  | None =>
      count_char "." s = O /\ has_digit s = has_digit (fst (Str.split_at "." s))
  | Some r =>
      Str.forallb is_money_char r = true /\
      count_char "." s = S (count_char "." r) /\
      has_digit s = has_digit (fst (Str.split_at "." s)) || has_digit r
  end.
Proof.
  induction s as [|c s IH]; simpl.
  - intros _. repeat split.
  - intros H. apply andb_prop in H. destruct H as [Hc Hs].
    destruct (money_char_cases c Hc) as [[E D]|[E D]]; rewrite E; simpl.
    + rewrite D. repeat split; assumption.
    + specialize (IH Hs).
      destruct (Str.split_at "." s) as [a [r|]]; simpl in *; rewrite D; simpl;
        intuition auto.
Qed.

(** The test of [float_of_clean] on a text of digits and periods is
    [decimal_number]. *)
Lemma float_of_clean_cases (clean : string) :
  Str.forallb is_money_char clean = true ->
  (decimal_number clean = true -> exists f, float_of_clean clean = OK f) /\
  (decimal_number clean = false ->
   float_of_clean clean =
   Raise (ValueError ("could not convert string to float: '" ++ clean ++ "'"))).
Proof.
  intros Hm. unfold float_of_clean, decimal_number.
  pose proof (split_at_money clean Hm) as [Hi Hr].
  destruct (Str.split_at "." clean) as [i [r|]]; simpl in Hi, Hr.
  - destruct Hr as [Hrm [Hc Hd]].
    rewrite Hi, Hc, Hd. simpl.
    rewrite (digits_no_period r Hrm).
    destruct (count_char "." r) as [|n] eqn:En; simpl.
    + assert (Hrd : Str.forallb Str.is_digit r = true).
      { rewrite (digits_no_period r Hrm), En. reflexivity. }
      assert (Hall : Str.forallb Str.is_digit (i ++ r) = true).
      { rewrite forallb_digit_app, Hi, Hrd. reflexivity. }
      rewrite <- (digits_nonempty _ Hall), has_digit_app.
      destruct (has_digit i || has_digit r); split; intros H;
        try discriminate H; eauto.
    + split; intros H; [discriminate H | reflexivity].
  - destruct Hr as [Hc Hd]. rewrite Hi, Hc, Hd. simpl.
    assert (Hall : Str.forallb Str.is_digit (i ++ "") = true).
    { rewrite forallb_digit_app, Hi. reflexivity. }
    rewrite <- (digits_nonempty _ Hall), has_digit_app. simpl.
    rewrite orb_false_r.
    destruct (has_digit i); split; intros H; try discriminate H; eauto.
Qed.

(** C4, as the code has it.  On a string, [parse_money] removes every
    character that is not a decimal digit or a period; an empty remainder
    gives 0.0, a remainder that is a decimal number (at most one period, at
    least one digit) is read as a float, and every other remainder makes
    [float] raise [ValueError]: such a cell is not turned into 0.0. *)
Theorem parse_money_text_cases (s : string) :
  let clean := Str.filter is_money_char s in
  (clean = EmptyString -> parse_money (PyStr s) = OK 0%float) /\
  (decimal_number clean = true -> exists f, parse_money (PyStr s) = OK f) /\
  (clean <> EmptyString -> decimal_number clean = false ->
   parse_money (PyStr s) =
   Raise (ValueError ("could not convert string to float: '" ++ clean ++ "'"))).
Proof.
  intros clean. unfold parse_money. simpl. fold clean.
  pose proof (float_of_clean_cases clean (filter_money_chars s)) as [Hok Hbad].
  split; [|split].
  - intros ->. reflexivity.
  - intros Hd. destruct (String.eqb_spec clean EmptyString) as [E|E].
    + rewrite E in Hd. discriminate Hd.
    + exact (Hok Hd).
  - intros Hne Hd. destruct (String.eqb_spec clean EmptyString) as [E|E].
    + contradiction.
    + exact (Hbad Hd).
Qed.

(** C4, counterexample.  A cell in the European format is not normalised
    to 0.0: its remainder ["1.234.567"] has two periods and [float] raises. *)
Lemma parse_money_raises_on_two_periods :
  parse_money (PyStr "€1.234.567") =
  Raise (ValueError "could not convert string to float: '1.234.567'").
Proof. vm_compute. reflexivity. Qed.

Lemma digit_not_period (c : ascii) :
  Str.is_digit c = true -> Ascii.eqb c "." = false.
Proof.
  intros H. destruct (Ascii.eqb c ".") eqn:E; [|reflexivity].
  apply Ascii.eqb_eq in E. subst c. discriminate H.
Qed.

Lemma split_at_digits (i : string) (rest : option string) :
  Str.forallb Str.is_digit i = true ->
  Str.split_at "."
    (i ++ match rest with Some r => String "." r | None => EmptyString end) =
  (i, rest).
Proof.
  induction i as [|c i' IH]; simpl.
  - intros _. destruct rest; reflexivity.
  - intros H. apply andb_prop in H. destruct H as [Hc Hi].
    rewrite (digit_not_period c Hc), (IH Hi). reflexivity.
Qed.

(** A remainder with the digits [i] before the period and [f] after it is
    read as the decimal number [i.f]. *)
Lemma float_of_clean_decimal (i : string) (rest : option string) :
  let f := match rest with Some r => r | None => EmptyString end in
  Str.forallb Str.is_digit i = true ->
  Str.forallb Str.is_digit f = true ->
  (i ++ f)%string <> EmptyString ->
  float_of_clean
    (i ++ match rest with Some r => String "." r | None => EmptyString end) =
  OK (Flt.of_decimal (Str.digits_value 0 (i ++ f)) (String.length f)).
Proof.
  intros f Hi Hf Hne. unfold float_of_clean.
  rewrite (split_at_digits i rest Hi). fold f.
  rewrite Hi, Hf. simpl.
  destruct (String.eqb_spec (i ++ f) EmptyString) as [E|E]; [contradiction|].
  reflexivity.
Qed.

(** ** Integers read as floats *)

Lemma binary_round_sign (m : positive) (e : Z) :
  binary_round prec emax true m e = SFopp (binary_round prec emax false m e).
Proof.
  unfold binary_round.
  destruct (shl_align m e (fexp prec emax (Z.pos (digits2_pos m) + e))) as [mz ez].
  unfold binary_round_aux.
  destruct (shr_fexp prec emax (Z.pos mz) ez loc_Exact) as [mrs' e'].
  destruct (shr_fexp prec emax
              (round_nearest_even (shr_m mrs') (loc_of_shr_record mrs')) e' loc_Exact)
    as [mrs'' e''].
  destruct (shr_m mrs'') as [|q|q]; simpl; try reflexivity.
  match goal with |- context [Z.leb ?a ?b] => destruct (Z.leb a b) end; reflexivity.
Qed.

Lemma binary_round_unsigned (m : positive) (e : Z) :
  match binary_round prec emax false m e with
  | S754_zero s | S754_infinity s | S754_finite s _ _ => s = false
  | S754_nan => True
  end.
Proof.
  unfold binary_round.
  destruct (shl_align m e (fexp prec emax (Z.pos (digits2_pos m) + e))) as [mz ez].
  unfold binary_round_aux.
  destruct (shr_fexp prec emax (Z.pos mz) ez loc_Exact) as [mrs' e'].
  destruct (shr_fexp prec emax
              (round_nearest_even (shr_m mrs') (loc_of_shr_record mrs')) e' loc_Exact)
    as [mrs'' e''].
  destruct (shr_m mrs'') as [|q|q]; simpl; try reflexivity.
  match goal with |- context [Z.leb ?a ?b] => destruct (Z.leb a b) end; reflexivity.
Qed.

(** The float of a negative integer is the opposite of the float of its
    absolute value. *)
Lemma float_of_int_neg (p : positive) :
  float_of_int (Zneg p) = (f <- float_of_int (Zpos p) ;; OK (- f)%float).
Proof.
  unfold float_of_int, binary_normalize.
  rewrite binary_round_sign.
  pose proof (binary_round_unsigned p 0) as Hs.
  destruct (binary_round prec emax false p 0) as [s|s| |s m e]; simpl in *;
    try subst s; reflexivity.
Qed.

(** ** C6: the contract of the money parser *)

Set Warnings "-inexact-float".

(** C6. [parse_money] by cases: [None] and NaN give 0.0; a float that is
    not NaN is returned as it is and an integer is converted by [float],
    the opposite integer giving the opposite float (the sign is kept); a
    string loses every character that is not a decimal digit or a period
    and the remainder [i.f] (or [i]) is read as that decimal number, an
    empty remainder giving 0.0.  The five samples of the specification
    evaluate as it says. *)
Theorem parse_money_contract :
  parse_money PyNone = OK 0%float /\
  parse_money (PyFloat nan) = OK 0%float /\
  (forall f, is_nan f = false -> parse_money (PyFloat f) = OK f) /\
  (forall z, parse_money (PyInt z) = float_of_int z) /\
  (forall p, parse_money (PyInt (Zneg p)) =
             (f <- parse_money (PyInt (Zpos p)) ;; OK (- f)%float)) /\
  (forall s, Str.filter is_money_char s = EmptyString ->
             parse_money (PyStr s) = OK 0%float) /\
  (forall s i f,
      Str.forallb Str.is_digit i = true ->
      Str.forallb Str.is_digit f = true ->
      (i ++ f)%string <> EmptyString ->
      Str.filter is_money_char s = (i ++ String "." f)%string ->
      parse_money (PyStr s) =
      OK (Flt.of_decimal (Str.digits_value 0 (i ++ f)) (String.length f))) /\
  (forall s i,
      Str.forallb Str.is_digit i = true ->
      i <> EmptyString ->
      Str.filter is_money_char s = i ->
      parse_money (PyStr s) = OK (Flt.of_decimal (Str.digits_value 0 i) 0)) /\
  parse_money (PyStr "€1,234.56") = OK 1234.56%float /\
  parse_money (PyStr "$0.00") = OK 0%float /\
  parse_money (PyInt 42) = OK 42%float /\
  parse_money (PyInt (-42)) = OK (-42)%float /\
  parse_money (PyFloat (-2.5)%float) = OK (-2.5)%float /\
  parse_money (PyStr "") = OK 0%float.
Proof.
  split; [reflexivity|]. split; [reflexivity|].
  split.
  { intros f Hf. unfold parse_money. simpl. rewrite Hf. reflexivity. }
  split; [reflexivity|].
  split.
  { intros p. exact (float_of_int_neg p). }
  split.
  { intros s Hs. unfold parse_money. simpl. rewrite Hs. reflexivity. }
  split.
  { intros s i f Hi Hf Hne Hs. unfold parse_money. simpl. rewrite Hs.
    destruct (String.eqb_spec (i ++ String "." f) EmptyString) as [E|_].
    - destruct i; discriminate E.
    - exact (float_of_clean_decimal i (Some f) Hi Hf Hne). }
  split.
  { intros s i Hi Hne Hs. unfold parse_money. simpl. rewrite Hs.
    destruct (String.eqb_spec i EmptyString) as [E|_]; [contradiction|].
    pose proof (float_of_clean_decimal i None Hi eq_refl) as H. simpl in H.
    assert (E : (i ++ "")%string = i).
    { clear. induction i as [|c i' IH]; simpl; [reflexivity | rewrite IH; reflexivity]. }
    rewrite E in H. apply H. exact Hne. }
  repeat split; vm_compute; reflexivity.
Qed.

(** ** The column resolver *)

Lemma scan_column_eq (t b : option string) (col : string) :
  scan_column (t, b) col =
  (if is_total_column col then Some col else t,
   if is_b2b_column col then Some col else b).
Proof. reflexivity. Qed.

Lemma scan_total_none (cols : list string) (t b : option string) :
  fst (fold_left scan_column cols (t, b)) = None <->
  t = None /\ forall c, In c cols -> is_total_column c = false.
Proof.
  revert t b; induction cols as [|col cols IH]; intros t b; cbn [fold_left].
  - simpl. split; [intros H; split; [exact H | intros c []] | intros [H _]; exact H].
  - rewrite scan_column_eq, IH. split.
    + intros [Ht Hc]. destruct (is_total_column col) eqn:E; [discriminate Ht|].
      split; [exact Ht|]. intros c [<-|Hin]; [exact E | exact (Hc c Hin)].
    + intros [Ht Hc]. rewrite (Hc col (or_introl eq_refl)).
      split; [exact Ht|]. intros c Hin. apply Hc. right. exact Hin.
Qed.

Lemma scan_b2b_none (cols : list string) (t b : option string) :
  snd (fold_left scan_column cols (t, b)) = None <->
  b = None /\ forall c, In c cols -> is_b2b_column c = false.
Proof.
  revert t b; induction cols as [|col cols IH]; intros t b; cbn [fold_left].
  - simpl. split; [intros H; split; [exact H | intros c []] | intros [H _]; exact H].
  - rewrite scan_column_eq, IH. split.
    + intros [Hb Hc]. destruct (is_b2b_column col) eqn:E; [discriminate Hb|].
      split; [exact Hb|]. intros c [<-|Hin]; [exact E | exact (Hc c Hin)].
    + intros [Hb Hc]. rewrite (Hc col (or_introl eq_refl)).
      split; [exact Hb|]. intros c Hin. apply Hc. right. exact Hin.
Qed.

Lemma scan_b2b_some (cols : list string) (t b : option string) (c : string) :
  snd (fold_left scan_column cols (t, b)) = Some c ->
  b = Some c \/ (In c cols /\ is_b2b_column c = true).
Proof.
  revert t b; induction cols as [|col cols IH]; intros t b; cbn [fold_left].
  - simpl. intros H. left. exact H.
  - rewrite scan_column_eq. intros H. apply IH in H.
    destruct H as [H|[Hin Hc]].
    + destruct (is_b2b_column col) eqn:E.
      * injection H as <-. right. split; [left; reflexivity | exact E].
      * left. exact H.
    + right. split; [right; exact Hin | exact Hc].
Qed.

Lemma scan_total_some (cols : list string) (t b : option string) (c : string) :
  fst (fold_left scan_column cols (t, b)) = Some c ->
  t = Some c \/ (In c cols /\ is_total_column c = true).
Proof.
  revert t b; induction cols as [|col cols IH]; intros t b; cbn [fold_left].
  - simpl. intros H. left. exact H.
  - rewrite scan_column_eq. intros H. apply IH in H.
    destruct H as [H|[Hin Hc]].
    + destruct (is_total_column col) eqn:E.
      * injection H as <-. right. split; [left; reflexivity | exact E].
      * left. exact H.
    + right. split; [right; exact Hin | exact Hc].
Qed.

(** What [find_sales_columns] returns, by what the header holds. *)
Lemma find_sales_columns_spec (df : DataFrame) :
  match find_sales_columns df with
  | Raise e =>
      e = missing_column /\
      forall c, In c (columns df) -> is_total_column c = false
  | OK (total_col, b2b_col) =>
      In total_col (columns df) /\ is_total_column total_col = true /\
      match b2b_col with
      | Some c => In c (columns df) /\ is_b2b_column c = true
      | None => forall c, In c (columns df) -> is_b2b_column c = false
      end
  end.
Proof.
  unfold find_sales_columns.
  pose proof (scan_total_none (columns df) None None) as Htn.
  pose proof (scan_total_some (columns df) None None) as Hts.
  pose proof (scan_b2b_none (columns df) None None) as Hbn.
  pose proof (scan_b2b_some (columns df) None None) as Hbs.
  destruct (fold_left scan_column (columns df) (None, None)) as [[t|] b]; simpl in *.
  - destruct (Hts t eq_refl) as [H|[Hin Ht]]; [discriminate H|].
    split; [exact Hin|]. split; [exact Ht|].
    destruct b as [c|].
    + destruct (Hbs c eq_refl) as [H|H]; [discriminate H | exact H].
    + apply Hbn. reflexivity.
  - split; [reflexivity|]. apply Htn. reflexivity.
Qed.

(** ** Reading and writing columns *)

Lemma getitem_setitem_other (df : DataFrame) (k k' : string) (v : Series) :
  k <> k' -> getitem (setitem df k v) k' = getitem df k'.
Proof.
  intros Hne. induction df as [|[name s0] df IH]; simpl.
  - destruct (String.eqb_spec k k') as [E|_]; [contradiction | reflexivity].
  - destruct (String.eqb_spec name k) as [E|E]; simpl.
    + subst name. destruct (String.eqb_spec k k') as [E'|_]; [contradiction | reflexivity].
    + destruct (String.eqb name k'); [reflexivity | exact IH].
Qed.

Lemma getitem_setitem_same (df : DataFrame) (k : string) (v : Series) :
  getitem (setitem df k v) k = OK v.
Proof.
  induction df as [|[name s0] df IH]; simpl.
  - rewrite String.eqb_refl. reflexivity.
  - destruct (String.eqb_spec name k) as [E|E]; simpl.
    + subst name. rewrite String.eqb_refl. reflexivity.
    + destruct (String.eqb_spec name k) as [E'|_]; [contradiction | exact IH].
Qed.

Lemma getitem_missing (df : DataFrame) (k : string) :
  ~ In k (columns df) <-> getitem df k = Raise (KeyError k).
Proof.
  induction df as [|[name s0] df IH]; simpl.
  - split; [reflexivity | intros _ []].
  - destruct (String.eqb_spec name k) as [E|E].
    + split; [intros H; exfalso; apply H; left; exact E | intros H; discriminate H].
    + rewrite <- IH. split.
      * intros H Hin. apply H. right. exact Hin.
      * intros H [H'|H']; [contradiction | exact (H H')].
Qed.


Lemma columns_setitem (df : DataFrame) (k : string) (v : Series) :
  columns (setitem df k v) =
  if existsb (String.eqb k) (columns df) then columns df else columns df ++ [k].
Proof.
  induction df as [|[name s0] df IH]; simpl.
  - reflexivity.
  - rewrite (String.eqb_sym k name).
    destruct (String.eqb name k) eqn:E; simpl.
    + reflexivity.
    + rewrite IH. destruct (existsb (String.eqb k) (columns df)); reflexivity.
Qed.

Lemma in_columns_setitem (df : DataFrame) (k : string) (v : Series) (c : string) :
  In c (columns (setitem df k v)) <-> In c (columns df) \/ c = k.
Proof.
  rewrite columns_setitem.
  destruct (existsb (String.eqb k) (columns df)) eqn:E.
  - split; [intros H; left; exact H|].
    intros [H|H]; [exact H|]. subst c.
    apply existsb_exists in E. destruct E as [x [Hx Hk]].
    apply String.eqb_eq in Hk. subst x. exact Hx.
  - rewrite in_app_iff. simpl. split.
    + intros [H|[H|[]]]; [left; exact H | right; symmetry; exact H].
    + intros [H|H]; [left; exact H | right; left; symmetry; exact H].
Qed.

(** ** The aggregator, step by step *)

Lemma b2b_column_not_consumer (c : string) :
  is_b2b_column c = true -> "__sales_consumer" <> c.
Proof. intros H E. subst c. discriminate H. Qed.

Lemma getitem_sku_with_amounts (df : DataFrame) (consumer b2b : list float) :
  getitem (with_amounts df consumer b2b) "SKU" = getitem df "SKU".
Proof.
  unfold with_amounts.
  rewrite !getitem_setitem_other by discriminate. reflexivity.
Qed.

(** A failure while the money columns are resolved and parsed ends the
    call with that exception. *)
Lemma aggregate_sales_amounts_fail (df : DataFrame) (e : exn) :
  parsed_amounts df = Raise e ->
  exists df', aggregate_sales df = (df', Raise e).
Proof.
  unfold parsed_amounts, aggregate_sales, bindM, parse_column, reading, assign.
  pose proof (find_sales_columns_spec df) as Hspec.
  destruct (find_sales_columns df) as [[total_col b2b_col]|e0]; cbn [bind].
  - destruct Hspec as (_ & _ & Hb).
    destruct (s <- getitem df total_col ;; apply parse_money s) as [consumer|e1]; cbn [bind].
    + destruct b2b_col as [c|]; cbn [bind].
      * destruct Hb as [_ Hb].
        rewrite (getitem_setitem_other _ _ _ _ (b2b_column_not_consumer c Hb)).
        destruct (s <- getitem df c ;; apply parse_money s) as [b2b|e2]; cbn [bind].
        -- intros H. discriminate H.
        -- intros H. injection H as <-. eexists. reflexivity.
      * intros H. discriminate H.
    + intros H. injection H as <-. eexists. reflexivity.
  - intros H. injection H as <-. eexists. reflexivity.
Qed.

(** Once the money columns are parsed, the call sets the three sales
    columns and then looks the SKU column up. *)
Lemma aggregate_sales_after_amounts (df : DataFrame) (consumer b2b : list float) :
  parsed_amounts df = OK (consumer, b2b) ->
  aggregate_sales df =
  match getitem df "SKU" with
  | OK sku =>
      let brand := map detect_brand sku in
      (with_sales_columns df brand consumer b2b,
       OK (sort_values_desc
             (groupby_sum brand consumer b2b (series_add consumer b2b))))
  | Raise e => (with_amounts df consumer b2b, Raise e)
  end.
Proof.
  unfold parsed_amounts, aggregate_sales, bindM, parse_column, reading, assign, ret.
  pose proof (find_sales_columns_spec df) as Hspec.
  destruct (find_sales_columns df) as [[total_col b2b_col]|e0]; cbn [bind];
    [|intros H; discriminate H].
  destruct Hspec as (_ & _ & Hb).
  destruct (s <- getitem df total_col ;; apply parse_money s) as [c0|e1]; cbn [bind];
    [|intros H; discriminate H].
  assert (Hsku : forall b0,
             getitem (setitem (setitem (setitem df "__sales_consumer" (map PyFloat c0))
                                       "__sales_b2b" (map PyFloat b0))
                              "__sales_total" (map PyFloat (series_add c0 b0))) "SKU"
             = getitem df "SKU").
  { intros b0. exact (getitem_sku_with_amounts df c0 b0). }
  destruct b2b_col as [c|]; cbn [bind].
  - destruct Hb as [_ Hb].
    rewrite (getitem_setitem_other _ _ _ _ (b2b_column_not_consumer c Hb)).
    destruct (s <- getitem df c ;; apply parse_money s) as [b0|e2]; cbn [bind];
      [|intros H; discriminate H].
    intros H. injection H as <- <-. rewrite Hsku.
    destruct (getitem df "SKU"); reflexivity.
  - intros H. injection H as <- <-. rewrite Hsku.
    destruct (getitem df "SKU"); reflexivity.
Qed.

(** The call in terms of the parsed rows. *)
Lemma aggregate_sales_ok (df : DataFrame) (brand : list string)
    (consumer b2b : list float) :
  parsed_rows df = OK (brand, consumer, b2b) ->
  aggregate_sales df =
  (with_sales_columns df brand consumer b2b,
   OK (sort_values_desc (groupby_sum brand consumer b2b (series_add consumer b2b)))).
Proof.
  unfold parsed_rows.
  destruct (parsed_amounts df) as [[c0 b0]|e] eqn:Ha; cbn [bind]; [|intros H; discriminate H].
  rewrite (aggregate_sales_after_amounts df c0 b0 Ha).
  destruct (getitem df "SKU") as [sku|e]; cbn [bind]; [|intros H; discriminate H].
  intros H. injection H as <- <- <-. reflexivity.
Qed.

Lemma aggregate_sales_raise (df : DataFrame) (e : exn) :
  parsed_rows df = Raise e ->
  exists df', aggregate_sales df = (df', Raise e).
Proof.
  unfold parsed_rows.
  destruct (parsed_amounts df) as [[c0 b0]|e0] eqn:Ha; cbn [bind].
  - rewrite (aggregate_sales_after_amounts df c0 b0 Ha).
    destruct (getitem df "SKU") as [sku|e1]; cbn [bind]; intros H.
    + discriminate H.
    + injection H as <-. eexists. reflexivity.
  - intros H. injection H as <-. exact (aggregate_sales_amounts_fail df e0 Ha).
Qed.

(** A call that returns a summary is a call whose rows parse, and the
    summary is the ordered grouping of those rows. *)
Lemma aggregate_sales_inv (df df' : DataFrame) (summary : Summary) :
  aggregate_sales df = (df', OK summary) ->
  exists brand consumer b2b,
    parsed_rows df = OK (brand, consumer, b2b) /\
    df' = with_sales_columns df brand consumer b2b /\
    summary =
    sort_values_desc (groupby_sum brand consumer b2b (series_add consumer b2b)).
Proof.
  intros H.
  destruct (parsed_rows df) as [[[brand consumer] b2b]|e] eqn:Hp.
  - rewrite (aggregate_sales_ok df brand consumer b2b Hp) in H.
    injection H as <- <-. exists brand, consumer, b2b. repeat split.
  - destruct (aggregate_sales_raise df e Hp) as [df'' H'].
    rewrite H' in H. discriminate H.
Qed.

(** ** C7: no consumer sales column *)



(** ** C8: no SKU column *)

(** C8, as the code has it.  On a table without a ["SKU"] column
    [aggregate_sales] always ends with an exception and returns no summary.
    The exception is [KeyError('SKU')] when the money columns resolve and
    parse, and it is raised after the three sales columns have been written
    to the table; when resolution or parsing fails, that earlier exception
    is the one raised. *)
Theorem missing_sku_column_fails (df : DataFrame) :
  ~ In "SKU" (columns df) ->
  (exists df' e, aggregate_sales df = (df', Raise e)) /\
  (forall consumer b2b,
      parsed_amounts df = OK (consumer, b2b) ->
      aggregate_sales df = (with_amounts df consumer b2b, Raise (KeyError "SKU"))) /\
  (forall e,
      parsed_amounts df = Raise e ->
      exists df', aggregate_sales df = (df', Raise e)).
Proof.
  intros Hno. apply getitem_missing in Hno.
  assert (Hok : forall consumer b2b,
             parsed_amounts df = OK (consumer, b2b) ->
             aggregate_sales df =
             (with_amounts df consumer b2b, Raise (KeyError "SKU"))).
  { intros consumer b2b Ha.
    rewrite (aggregate_sales_after_amounts df consumer b2b Ha), Hno. reflexivity. }
  split; [|split].
  - destruct (parsed_amounts df) as [[consumer b2b]|e] eqn:Ha.
    + eexists. eexists. exact (Hok consumer b2b eq_refl).
    + destruct (aggregate_sales_amounts_fail df e Ha) as [df' H].
      exists df', e. exact H.
  - exact Hok.
  - intros e Ha. exact (aggregate_sales_amounts_fail df e Ha).
Qed.

Lemma missing_sku_column_fails_witness :
  aggregate_sales [("Ordered Product Sales", [PyStr "$5.00"])] =
  (with_amounts [("Ordered Product Sales", [PyStr "$5.00"])] [5%float] [0%float],
   Raise (KeyError "SKU")).
Proof.
  apply (missing_sku_column_fails [("Ordered Product Sales", [PyStr "$5.00"])]).
  - intros [H|[]]. discriminate H.
  - vm_compute. reflexivity.
Defined.

(** C8, counterexample.  Two tables without a ["SKU"] column on which the
    call does not end with the missing-field error: the first has no
    consumer sales column either and gets the missing-column error, the
    second has a cell [float] cannot read and gets that [ValueError]. *)
Lemma missing_sku_not_the_error_raised :
  ~ In "SKU" (columns [("Title", [PyStr "Socks"])]) /\
  aggregate_sales [("Title", [PyStr "Socks"])] =
    ([("Title", [PyStr "Socks"])],
     Raise (ValueError "Couldn't find 'Ordered Product Sales' column.")) /\
  ~ In "SKU" (columns [("Ordered Product Sales", [PyStr "1.2.3"])]) /\
  aggregate_sales [("Ordered Product Sales", [PyStr "1.2.3"])] =
    ([("Ordered Product Sales", [PyStr "1.2.3"])],
     Raise (ValueError "could not convert string to float: '1.2.3'")).
Proof.
  split; [intros [H|[]]; discriminate H|].
  split; [vm_compute; reflexivity|].
  split; [intros [H|[]]; discriminate H|].
  vm_compute; reflexivity.
Qed.

(** ** C10: the table of the caller is changed *)

Lemma in_columns_with_sales_columns (df : DataFrame) (brand : list string)
    (consumer b2b : list float) (c : string) :
  In c (columns (with_sales_columns df brand consumer b2b)) <->
  In c (columns df) \/ c = "__sales_consumer" \/ c = "__sales_b2b" \/
  c = "__sales_total" \/ c = "Brand".
Proof.
  unfold with_sales_columns, with_amounts.
  rewrite !in_columns_setitem. tauto.
Qed.

(** C10. After a call that returns a summary the table of the caller holds
    every column it had and the columns ['__sales_consumer'],
    ['__sales_b2b'], ['__sales_total'] and ['Brand'], filled with the parsed
    amounts, their row-wise sums and the brands; the other columns keep
    their values; and a table that lacked one of the four names is no
    longer the table that was passed. *)
Theorem aggregate_sales_mutates_table (df df' : DataFrame) (summary : Summary) :
  aggregate_sales df = (df', OK summary) ->
  (forall c, In c (columns df) -> In c (columns df')) /\
  In "__sales_consumer" (columns df') /\
  In "__sales_b2b" (columns df') /\
  In "__sales_total" (columns df') /\
  In "Brand" (columns df') /\
  (forall c, c <> "__sales_consumer" -> c <> "__sales_b2b" ->
             c <> "__sales_total" -> c <> "Brand" ->
             getitem df' c = getitem df c) /\
  (exists brand consumer b2b,
      parsed_rows df = OK (brand, consumer, b2b) /\
      getitem df' "__sales_consumer" = OK (map PyFloat consumer) /\
      getitem df' "__sales_b2b" = OK (map PyFloat b2b) /\
      getitem df' "__sales_total" = OK (map PyFloat (series_add consumer b2b)) /\
      getitem df' "Brand" = OK (map PyStr brand)) /\
  (~ In "__sales_consumer" (columns df) \/ ~ In "__sales_b2b" (columns df) \/
   ~ In "__sales_total" (columns df) \/ ~ In "Brand" (columns df) ->
   df' <> df).
Proof.
  intros H.
  destruct (aggregate_sales_inv df df' summary H)
    as (brand & consumer & b2b & Hp & -> & _).
  pose proof (in_columns_with_sales_columns df brand consumer b2b) as Hin.
  split; [intros c Hc; apply Hin; left; exact Hc|].
  split; [apply Hin; tauto|].
  split; [apply Hin; tauto|].
  split; [apply Hin; tauto|].
  split; [apply Hin; tauto|].
  split.
  { intros c H1 H2 H3 H4. unfold with_sales_columns, with_amounts.
    rewrite !getitem_setitem_other by congruence. reflexivity. }
  split.
  { exists brand, consumer, b2b. split; [exact Hp|].
    unfold with_sales_columns, with_amounts.
    repeat split.
    - rewrite !getitem_setitem_other by discriminate. apply getitem_setitem_same.
    - rewrite !getitem_setitem_other by discriminate. apply getitem_setitem_same.
    - rewrite !getitem_setitem_other by discriminate. apply getitem_setitem_same.
    - apply getitem_setitem_same. }
  intros Hlack E.
  assert (Hall : forall c, In c (columns (with_sales_columns df brand consumer b2b)) ->
                           In c (columns df)).
  { intros c Hc. rewrite E in Hc. exact Hc. }
  destruct Hlack as [Hl|[Hl|[Hl|Hl]]]; apply Hl, Hall, Hin; tauto.
Qed.

Lemma aggregate_sales_mutates_table_witness :
  In "Brand"
     (columns (with_sales_columns
                 [("SKU", [PyStr "TH_1"]); ("Ordered Product Sales", [PyStr "€100.00"])]
                 ["Theonia EU"] [100%float] [0%float])).
Proof.
  apply (aggregate_sales_mutates_table
           [("SKU", [PyStr "TH_1"]); ("Ordered Product Sales", [PyStr "€100.00"])]
           _ [mkRow "Theonia EU" 100 0 100]).
  vm_compute. reflexivity.
Defined.

(** ** Binary64 rounding never yields zero from a non-zero sum *)

Local Open Scope Z_scope.

Lemma shr_1_m (r : shr_record) :
  0 <= shr_m r -> shr_m (shr_1 r) = shr_m r / 2.
Proof.
  destruct r as [m b s]. simpl.
  destruct m as [|[p|p|]|p]; intros H; simpl; try reflexivity; try lia.
  - rewrite Pos2Z.inj_xI. apply Z.div_unique with (r := 1); lia.
  - rewrite Pos2Z.inj_xO. apply Z.div_unique with (r := 0); lia.
Qed.

Lemma iter_shr_1_m (p : positive) :
  forall r, 0 <= shr_m r ->
            shr_m (iter_pos shr_1 p r) = shr_m r / 2 ^ Zpos p.
Proof.
  induction p as [p IH|p IH|]; intros r Hr; simpl iter_pos;
    try assert (Hpow : 0 < 2 ^ Zpos p) by (apply Z.pow_pos_nonneg; lia).
  - assert (H1 : 0 <= shr_m (shr_1 r)).
    { rewrite shr_1_m by exact Hr. apply Z.div_pos; lia. }
    assert (H2 : 0 <= shr_m (iter_pos shr_1 p (shr_1 r))).
    { rewrite IH by exact H1. apply Z.div_pos; [exact H1 | apply Z.pow_pos_nonneg; lia]. }
    rewrite IH by exact H2. rewrite IH by exact H1. rewrite shr_1_m by exact Hr.
    rewrite !Z.div_div by lia.
    f_equal.
    replace (Zpos p~1) with (1 + Zpos p + Zpos p) by lia.
    rewrite !Z.pow_add_r by lia. lia.
  - assert (H2 : 0 <= shr_m (iter_pos shr_1 p r)).
    { rewrite IH by exact Hr. apply Z.div_pos; [exact Hr | apply Z.pow_pos_nonneg; lia]. }
    rewrite IH by exact H2. rewrite IH by exact Hr.
    rewrite Z.div_div by lia.
    f_equal.
    replace (Zpos p~0) with (Zpos p + Zpos p) by lia.
    rewrite Z.pow_add_r by lia. reflexivity.
  - rewrite shr_1_m by exact Hr. reflexivity.
Qed.

Lemma digits2_pos_lower (m : positive) :
  2 ^ (Zpos (digits2_pos m) - 1) <= Zpos m.
Proof.
  induction m as [m IH|m IH|]; simpl digits2_pos.
  - rewrite Pos2Z.inj_succ. replace (Z.succ (Zpos (digits2_pos m)) - 1)
      with (1 + (Zpos (digits2_pos m) - 1)) by lia.
    rewrite Z.pow_add_r by lia. lia.
  - rewrite Pos2Z.inj_succ. replace (Z.succ (Zpos (digits2_pos m)) - 1)
      with (1 + (Zpos (digits2_pos m) - 1)) by lia.
    rewrite Z.pow_add_r by lia. lia.
  - simpl. lia.
Qed.

Lemma shr_record_of_loc_m (m : Z) (l : location) :
  shr_m (shr_record_of_loc m l) = m.
Proof. destruct l as [|[]]; reflexivity. Qed.

(** Shifting a positive mantissa to its binary64 exponent leaves it
    positive, when the exponent is at least the smallest one. *)
Lemma shr_fexp_positive (m e : Z) (l : location) :
  0 < m -> emin <= e ->
  0 < shr_m (fst (shr_fexp prec emax m e l)) /\
  emin <= snd (shr_fexp prec emax m e l).
Proof.
  intros Hm He. unfold shr_fexp, shr.
  destruct m as [|m|m]; try lia.
  simpl Zdigits2.
  pose proof (digits2_pos_lower m) as Hd.
  remember (Zpos (digits2_pos m)) as d eqn:Ed.
  unfold fexp, SpecFloat.emin, prec, emax in *.
  destruct (Z.max (d + e - 53) (3 - 1024 - 53) - e) as [|p|p] eqn:En; simpl.
  - rewrite shr_record_of_loc_m. lia.
  - rewrite iter_shr_1_m by (rewrite shr_record_of_loc_m; lia).
    rewrite shr_record_of_loc_m. split; [|lia].
    apply Z.div_str_pos. split; [apply Z.pow_pos_nonneg; lia|].
    transitivity (2 ^ (d - 1)); [|exact Hd].
    apply Z.pow_le_mono_r; lia.
  - rewrite shr_record_of_loc_m. lia.
Qed.

Lemma round_nearest_even_ge (m : Z) (l : location) :
  m <= round_nearest_even m l.
Proof.
  unfold round_nearest_even.
  destruct l as [|[]]; try lia. destruct (Z.even m); lia.
Qed.

Lemma binary_round_aux_nonzero (s s' : bool) (m : positive) (e : Z) (l : location) :
  emin <= e ->
  binary_round_aux prec emax s (Zpos m) e l <> S754_zero s'.
Proof.
  intros He. unfold binary_round_aux.
  pose proof (shr_fexp_positive (Zpos m) e l eq_refl He) as [H1 H1e].
  destruct (shr_fexp prec emax (Zpos m) e l) as [mrs' e']. simpl in H1, H1e.
  pose proof (round_nearest_even_ge (shr_m mrs') (loc_of_shr_record mrs')) as Hr.
  assert (H2m : 0 < round_nearest_even (shr_m mrs') (loc_of_shr_record mrs')) by lia.
  pose proof (shr_fexp_positive _ e' loc_Exact H2m H1e) as [H2 _].
  destruct (shr_fexp prec emax
              (round_nearest_even (shr_m mrs') (loc_of_shr_record mrs')) e' loc_Exact)
    as [mrs'' e'']. simpl in H2.
  destruct (shr_m mrs'') as [|q|q]; try lia.
  destruct (e'' <=? emax - prec); discriminate.
Qed.

Lemma shl_align_exponent (m : positive) (e e' : Z) :
  emin <= e -> emin <= e' -> emin <= snd (shl_align m e e').
Proof.
  intros He He'. unfold shl_align.
  destruct (e' - e); simpl; assumption.
Qed.

Lemma binary_round_nonzero (s s' : bool) (m : positive) (e : Z) :
  emin <= e -> binary_round prec emax s m e <> S754_zero s'.
Proof.
  intros He. unfold binary_round.
  pose proof (shl_align_exponent m e (fexp prec emax (Zpos (digits2_pos m) + e)) He) as Ha.
  destruct (shl_align m e (fexp prec emax (Zpos (digits2_pos m) + e))) as [mz ez].
  apply binary_round_aux_nonzero. apply Ha.
  unfold fexp, SpecFloat.emin, prec, emax. lia.
Qed.

Lemma valid_exponent (s : bool) (m : positive) (e : Z) :
  valid_binary (S754_finite s m e) = true -> emin <= e.
Proof.
  simpl. unfold bounded, canonical_mantissa. intros H.
  apply andb_prop in H. destruct H as [H _].
  apply Z.eqb_eq in H. unfold fexp, SpecFloat.emin, prec, emax in *. lia.
Qed.

(** A sum is the negative zero only when both terms are. *)
Lemma SFadd_negative_zero (x y : spec_float) :
  valid_binary x = true -> valid_binary y = true ->
  SFadd prec emax x y = S754_zero true ->
  x = S754_zero true /\ y = S754_zero true.
Proof.
  intros Hx Hy.
  destruct x as [sx|sx| |sx mx ex], y as [sy|sy| |sy my ey]; simpl;
    try (intros H; discriminate H);
    try (destruct sx, sy; intros H; try discriminate H; split; reflexivity).
  intros H. exfalso.
  apply valid_exponent in Hx. apply valid_exponent in Hy.
  unfold binary_normalize in H.
  match type of H with
  | match ?z with _ => _ end = _ => destruct z as [|p|p]
  end.
  - discriminate H.
  - exact (binary_round_nonzero false true p (Z.min ex ey) ltac:(lia) H).
  - exact (binary_round_nonzero true true p (Z.min ex ey) ltac:(lia) H).
Qed.

(** ** Facts on primitive floats *)

Local Open Scope float_scope.



Lemma neg_zero_spec (x : float) :
  x = neg_zero <-> Prim2SF x = S754_zero true.
Proof.
  split; [intros ->; reflexivity|].
  intros H. apply Prim2SF_inj. rewrite H. reflexivity.
Qed.

Lemma add_neg_zero (x y : float) :
  x + y = neg_zero -> x = neg_zero /\ y = neg_zero.
Proof.
  intros H. apply neg_zero_spec in H. rewrite add_spec in H.
  apply SFadd_negative_zero in H; try apply Prim2SF_valid.
  rewrite !neg_zero_spec. exact H.
Qed.







(** ** The order of floats *)

Local Open Scope Z_scope.





Local Close Scope Z_scope.
Local Close Scope float_scope.

(** ** The order of labels and the keys of the groups *)

Lemma ascii_compare_refl (a : ascii) : Ascii.compare a a = Eq.
Proof. unfold Ascii.compare. apply N.compare_refl. Qed.

Lemma string_compare_refl (s : string) : String.compare s s = Eq.
Proof.
  induction s as [|c s IH]; simpl; [reflexivity|].
  rewrite ascii_compare_refl. exact IH.
Qed.

Lemma label_lt_irrefl (a : string) : ~ label_lt a a.
Proof. unfold label_lt. rewrite string_compare_refl. discriminate. Qed.

Lemma label_lt_trans (a b c : string) :
  label_lt a b -> label_lt b c -> label_lt a c.
Proof.
  unfold label_lt. revert b c.
  induction a as [|x a IH]; intros [|y b] [|z c]; simpl; try discriminate;
    try reflexivity.
  destruct (Ascii.compare x y) eqn:Exy; try discriminate;
    destruct (Ascii.compare y z) eqn:Eyz; try discriminate; intros Hab Hbc.
  - apply Ascii.compare_eq_iff in Exy. apply Ascii.compare_eq_iff in Eyz. subst y z.
    rewrite ascii_compare_refl. exact (IH b c Hab Hbc).
  - apply Ascii.compare_eq_iff in Exy. subst y. rewrite Eyz. reflexivity.
  - apply Ascii.compare_eq_iff in Eyz. subst z. rewrite Exy. reflexivity.
  - unfold Ascii.compare in *.
    apply N.compare_lt_iff in Exy. apply N.compare_lt_iff in Eyz.
    pose proof (N.lt_trans _ _ _ Exy Eyz) as H.
    apply N.compare_lt_iff in H. rewrite H. reflexivity.
Qed.

Lemma in_insert_key (k x : string) (l : list string) :
  In x (insert_key k l) <-> x = k \/ In x l.
Proof.
  induction l as [|h t IH]; simpl.
  - intuition.
  - destruct (String.compare k h) eqn:E; simpl.
    + apply String.compare_eq_iff in E. subst h. intuition.
    + intuition.
    + rewrite IH. intuition.
Qed.

Lemma insert_key_sorted (k : string) (l : list string) :
  StronglySorted label_lt l -> StronglySorted label_lt (insert_key k l).
Proof.
  induction l as [|h t IH]; simpl; intros Hs.
  - constructor; constructor.
  - inversion Hs as [|h' t' Ht Hh]; subst.
    destruct (String.compare k h) eqn:E.
    + exact Hs.
    + constructor; [exact Hs|].
      constructor; [exact E|].
      rewrite Forall_forall in *. intros x Hx.
      exact (label_lt_trans k h x E (Hh x Hx)).
    + assert (Hhk : label_lt h k).
      { unfold label_lt. rewrite String.compare_antisym, E. reflexivity. }
      constructor; [exact (IH Ht)|].
      rewrite Forall_forall in *. intros x Hx.
      apply in_insert_key in Hx. destruct Hx as [->|Hx]; [exact Hhk | exact (Hh x Hx)].
Qed.

Lemma in_group_keys (k : string) (keys : list string) :
  In k (group_keys keys) <-> In k keys.
Proof.
  unfold group_keys. induction keys as [|h t IH]; simpl.
  - tauto.
  - rewrite in_insert_key, IH. intuition.
Qed.

Lemma group_keys_sorted (keys : list string) :
  StronglySorted label_lt (group_keys keys).
Proof.
  unfold group_keys. induction keys as [|h t IH]; simpl.
  - constructor.
  - apply insert_key_sorted. exact IH.
Qed.

Lemma sorted_labels_nodup (l : list string) :
  StronglySorted label_lt l -> NoDup l.
Proof.
  induction 1 as [|h t Ht IH Hh]; constructor; [|exact IH].
  intros Hin. rewrite Forall_forall in Hh.
  exact (label_lt_irrefl h (Hh h Hin)).
Qed.

Lemma group_keys_nodup (keys : list string) : NoDup (group_keys keys).
Proof. apply sorted_labels_nodup, group_keys_sorted. Qed.

Lemma brands_of_groupby_sum (brand : list string) (consumer b2b total : list float) :
  map Brand (groupby_sum brand consumer b2b total) = group_keys brand.
Proof.
  unfold groupby_sum. rewrite map_map. simpl. apply map_id.
Qed.

(** ** Ordering the summary *)


Lemma insert_desc_perm (r : SummaryRow) (l : Summary) :
  Permutation (insert_desc r l) (r :: l).
Proof.
  induction l as [|y l IH]; simpl.
  - reflexivity.
  - destruct (Total_Sales r <? Total_Sales y)%float.
    + rewrite IH. apply perm_swap.
    + reflexivity.
Qed.

Lemma sort_desc_perm (l : Summary) :
  Permutation (fold_right insert_desc [] l) l.
Proof.
  induction l as [|r l IH]; simpl.
  - reflexivity.
  - rewrite insert_desc_perm. constructor. exact IH.
Qed.

Lemma filter_split_perm {A : Type} (p : A -> bool) (l : list A) :
  Permutation (filter (fun x => negb (p x)) l ++ filter p l) l.
Proof.
  induction l as [|x l IH]; simpl.
  - reflexivity.
  - destruct (p x); simpl.
    + rewrite <- Permutation_middle. constructor. exact IH.
    + constructor. exact IH.
Qed.

(** Ordering only rearranges the rows. *)
Lemma sort_values_desc_perm (rows : Summary) :
  Permutation (sort_values_desc rows) rows.
Proof.
  unfold sort_values_desc.
  rewrite sort_desc_perm.
  exact (filter_split_perm (fun r => is_nan (Total_Sales r)) rows).
Qed.








(** ** C3: the order of the summary *)




(** ** Rows, lengths and groups *)

Lemma apply_length {A B : Type} (f : A -> result B) (l : list A) (l' : list B) :
  apply f l = OK l' -> List.length l' = List.length l.
Proof.
  revert l'; induction l as [|x l IH]; intros l'; simpl.
  - intros H. injection H as <-. reflexivity.
  - destruct (f x) as [y|e]; simpl; [|intros H; discriminate H].
    destruct (apply f l) as [ys|e]; simpl; [|intros H; discriminate H].
    intros H. injection H as <-. simpl. rewrite (IH ys eq_refl). reflexivity.
Qed.

Lemma getitem_length (df : DataFrame) (k : string) (s : Series) :
  rectangular df = true -> getitem df k = OK s -> List.length s = nrows df.
Proof.
  unfold rectangular. generalize (nrows df) as n. intros n.
  induction df as [|[name s0] df IH]; simpl.
  - intros _ H. discriminate H.
  - intros Hr. apply andb_prop in Hr. destruct Hr as [Hs Hr].
    destruct (String.eqb name k).
    + intros H. injection H as <-. apply Nat.eqb_eq. exact Hs.
    + exact (IH Hr).
Qed.

Lemma nrows_setitem (df : DataFrame) (k : string) (v : Series) :
  List.length v = nrows df -> nrows (setitem df k v) = nrows df.
Proof.
  destruct df as [|[name s0] df]; simpl.
  - intros H. exact H.
  - destruct (String.eqb name k); simpl; intros H; [exact H | reflexivity].
Qed.

(** In a rectangular table the parsed columns have one value per row. *)
Lemma parsed_rows_lengths (df : DataFrame) (brand : list string)
    (consumer b2b : list float) :
  rectangular df = true ->
  parsed_rows df = OK (brand, consumer, b2b) ->
  List.length consumer = List.length brand /\
  List.length b2b = List.length brand.
Proof.
  intros Hrect. unfold parsed_rows, parsed_amounts.
  destruct (find_sales_columns df) as [[total_col b2b_col]|e]; cbn [bind];
    [|intros H; discriminate H].
  destruct (getitem df total_col) as [s|e] eqn:Hs; cbn [bind];
    [|intros H; discriminate H].
  destruct (apply parse_money s) as [c0|e] eqn:Hc; cbn [bind];
    [|intros H; discriminate H].
  assert (Lc : List.length c0 = nrows df).
  { rewrite (apply_length _ _ _ Hc). exact (getitem_length df _ _ Hrect Hs). }
  assert (Lb : forall b0,
             match b2b_col with
             | Some c => s0 <- getitem df c ;; apply parse_money s0
             | None =>
                 OK (repeat 0%float
                       (nrows (setitem df "__sales_consumer" (map PyFloat c0))))
             end = OK b0 -> List.length b0 = nrows df).
  { intros b0. destruct b2b_col as [c|].
    - destruct (getitem df c) as [s1|e] eqn:Hs1; cbn [bind];
        [|intros H; discriminate H].
      intros Hb. rewrite (apply_length _ _ _ Hb).
      exact (getitem_length df _ _ Hrect Hs1).
    - intros H. injection H as <-. rewrite repeat_length.
      apply nrows_setitem. rewrite length_map. exact Lc. }
  destruct (match b2b_col with
            | Some c => s0 <- getitem df c ;; apply parse_money s0
            | None => _
            end) as [b0|e] eqn:Hb; cbn [bind]; [|intros H; discriminate H].
  destruct (getitem df "SKU") as [sku|e] eqn:Hsku; cbn [bind];
    [|intros H; discriminate H].
  intros H. injection H as <- <- <-. simpl.
  rewrite length_map, (getitem_length df _ _ Hrect Hsku).
  split; [exact Lc | exact (Lb b0 eq_refl)].
Qed.






(** The rows of a summary, in terms of the groups of the input rows. *)
Lemma summary_row_fields (brand : list string) (consumer b2b total : list float)
    (r : SummaryRow) :
  In r (sort_values_desc (groupby_sum brand consumer b2b total)) ->
  In (Brand r) brand /\
  Consumer_Sales r = group_sum (select (Brand r) brand consumer) /\
  B2B_Sales r = group_sum (select (Brand r) brand b2b) /\
  Total_Sales r = group_sum (select (Brand r) brand total).
Proof.
  intros H. apply (Permutation_in r (sort_values_desc_perm _)) in H.
  unfold groupby_sum in H. apply in_map_iff in H. destruct H as [k [<- Hk]].
  apply (proj1 (in_group_keys k brand)) in Hk. simpl. repeat split. exact Hk.
Qed.

(** ** Sums of groups *)

Local Open Scope float_scope.


Lemma group_fold_not_neg_zero (xs : list float) (acc : float) :
  acc <> neg_zero ->
  fold_left (fun a x => if is_nan x then a else a + x) xs acc <> neg_zero.
Proof.
  revert acc; induction xs as [|x xs IH]; intros acc Hacc; simpl.
  - exact Hacc.
  - apply IH. destruct (is_nan x); [exact Hacc|].
    intros E. apply add_neg_zero in E. exact (Hacc (proj1 E)).
Qed.

Lemma zero_not_neg_zero : 0 <> neg_zero.
Proof. intros E. apply neg_zero_spec in E. discriminate E. Qed.

(** A group sum is never the negative zero. *)
Lemma group_sum_not_neg_zero (xs : list float) : group_sum xs <> neg_zero.
Proof. apply group_fold_not_neg_zero, zero_not_neg_zero. Qed.





Local Close Scope float_scope.

(** ** C9: no B2B column *)




(** ** C2: the totals of a summary row *)




(** ** Groups partition the rows *)






(** ** Sums in an associative and commutative arithmetic *)

Section Monoid.

Variable M : Type.
Variable op : M -> M -> M.
Variable e : M.
Hypothesis op_assoc : forall a b c, op a (op b c) = op (op a b) c.
Hypothesis op_comm : forall a b, op a b = op b a.
Hypothesis op_unit : forall a, op e a = a.




End Monoid.

(** ** C1: conservation *)

Lemma series_add_length (c b : list float) :
  List.length c = List.length b ->
  List.length (series_add c b) = List.length c.
Proof.
  revert b; induction c as [|x c IH]; intros [|y b]; simpl; try discriminate.
  - reflexivity.
  - intros H. injection H as H. rewrite (IH b H). reflexivity.
Qed.




(** * Further properties of the script *)

(** ** The column resolver *)

Lemma getitem_present (df : DataFrame) (k : string) :
  In k (columns df) -> exists s, getitem df k = OK s.
Proof.
  induction df as [|[name s0] df IH]; simpl.
  - intros [].
  - destruct (String.eqb_spec name k) as [E|E].
    + intros _. exists s0. reflexivity.
    + intros [H|H]; [contradiction | exact (IH H)].
Qed.

Lemma total_column_not_b2b (c : string) :
  is_total_column c = true -> is_b2b_column c = false.
Proof.
  unfold is_total_column, is_b2b_column. intros H.
  apply String.eqb_eq in H. rewrite H. reflexivity.
Qed.







Lemma lower_app (a b : string) :
  Str.lower (a ++ b) = (Str.lower a ++ Str.lower b)%string.
Proof.
  induction a as [|c a' IH]; simpl; [reflexivity | rewrite IH; reflexivity].
Qed.

Lemma lower_spaces (w : string) :
  Str.forallb Str.is_space w = true -> Str.lower w = w.
Proof.
  induction w as [|c w IH]; simpl; [reflexivity|].
  intros H. apply andb_prop in H. destruct H as [Hc Hw].
  rewrite (IH Hw). f_equal.
  unfold Str.is_space in Hc. unfold Str.lower_char.
  destruct ((65 <=? nat_of_ascii c)%nat && (nat_of_ascii c <=? 90)%nat) eqn:E;
    [|reflexivity].
  exfalso.
  apply andb_prop in E. destruct E as [E1 E2].
  apply Nat.leb_le in E1. apply Nat.leb_le in E2.
  apply orb_prop in Hc. destruct Hc as [Hc|Hc]; apply andb_prop in Hc;
    destruct Hc as [H1 H2]; apply Nat.leb_le in H1; apply Nat.leb_le in H2; lia.
Qed.

Lemma lstrip_spaces (w s : string) :
  Str.forallb Str.is_space w = true -> Str.lstrip (w ++ s) = Str.lstrip s.
Proof.
  induction w as [|c w IH]; simpl; [reflexivity|].
  intros H. apply andb_prop in H. destruct H as [Hc Hw].
  rewrite Hc. exact (IH Hw).
Qed.

Lemma drop_prefix_app (p r : string) : Str.drop_prefix p (p ++ r) = Some r.
Proof. apply drop_prefix_spec. reflexivity. Qed.

(** X3. The headers the B2B test accepts.  A header whose trimmed text is
    the words "ordered product sales" in any letter case, then any white
    space, an en dash or a hyphen, any white space and [b2b] in any letter
    case is taken as the B2B column, whatever follows: the pattern is
    matched at the start of the name only, so a header such as
    "Ordered Product Sales - B2B (EUR)" counts too. *)
Theorem b2b_header_accepted (col a w1 d w2 b rest : string) :
  Str.strip col = (a ++ w1 ++ d ++ w2 ++ b ++ rest)%string ->
  Str.lower a = "ordered product sales" ->
  Str.forallb Str.is_space w1 = true ->
  d = "–" \/ d = "-" ->
  Str.forallb Str.is_space w2 = true ->
  Str.lower b = "b2b" ->
  is_b2b_column col = true /\ is_total_column col = false.
Proof.
  intros Hcol Ha Hw1 Hd Hw2 Hb.
  assert (Hm : is_b2b_column col = true).
  { unfold is_b2b_column, match_b2b. rewrite Hcol.
    assert (E : Str.lower (Str.lower (a ++ w1 ++ d ++ w2 ++ b ++ rest)) =
                ("ordered product sales" ++ w1 ++ d ++ w2 ++ "b2b" ++
                 Str.lower (Str.lower rest))%string).
    { rewrite !lower_app, Ha, Hb, (lower_spaces w1 Hw1), (lower_spaces w2 Hw2).
      rewrite (lower_spaces w1 Hw1), (lower_spaces w2 Hw2).
      destruct Hd as [-> | ->]; reflexivity. }
    rewrite E, drop_prefix_app, (lstrip_spaces w1 _ Hw1).
    destruct Hd as [-> | ->].
    - change (Str.lstrip ("–" ++ w2 ++ "b2b" ++ Str.lower (Str.lower rest)))
        with ("–" ++ w2 ++ "b2b" ++ Str.lower (Str.lower rest))%string.
      rewrite drop_prefix_app, (lstrip_spaces w2 _ Hw2).
      change (Str.lstrip ("b2b" ++ Str.lower (Str.lower rest)))
        with ("b2b" ++ Str.lower (Str.lower rest))%string.
      rewrite drop_prefix_app. reflexivity.
    - change (Str.lstrip ("-" ++ w2 ++ "b2b" ++ Str.lower (Str.lower rest)))
        with ("-" ++ w2 ++ "b2b" ++ Str.lower (Str.lower rest))%string.
      change (Str.drop_prefix "–" ("-" ++ w2 ++ "b2b" ++ Str.lower (Str.lower rest)))
        with (@None string).
      rewrite drop_prefix_app, (lstrip_spaces w2 _ Hw2).
      change (Str.lstrip ("b2b" ++ Str.lower (Str.lower rest)))
        with ("b2b" ++ Str.lower (Str.lower rest))%string.
      rewrite drop_prefix_app. reflexivity. }
  split; [exact Hm|].
  destruct (is_total_column col) eqn:Ht; [|reflexivity].
  rewrite (total_column_not_b2b col Ht) in Hm. discriminate Hm.
Qed.

Lemma b2b_header_accepted_witness :
  is_b2b_column "  Ordered Product Sales –  B2B (EUR) " = true /\
  is_total_column "  Ordered Product Sales –  B2B (EUR) " = false.
Proof.
  apply (b2b_header_accepted "  Ordered Product Sales –  B2B (EUR) "
           "Ordered Product Sales" " " "–" "  " "B2B" " (EUR)").
  - reflexivity.
  - reflexivity.
  - reflexivity.
  - left. reflexivity.
  - reflexivity.
  - reflexivity.
Defined.

(** ** The money parser *)

Lemma filter_app (p : ascii -> bool) (a b : string) :
  Str.filter p (a ++ b) = (Str.filter p a ++ Str.filter p b)%string.
Proof.
  induction a as [|c a' IH]; simpl; [reflexivity|].
  destruct (p c); simpl; rewrite IH; reflexivity.
Qed.

(** X4. Only the digits and the periods of a string count: a character
    that is neither can be put in or taken out anywhere without changing
    what [parse_money] returns (value or exception).  In particular a minus
    sign is dropped, so a negative amount written as text is read as the
    positive one. *)
Theorem parse_money_ignores_other_characters (a b : string) (c : ascii) :
  is_money_char c = false ->
  parse_money (PyStr (a ++ String c b)) = parse_money (PyStr (a ++ b)) /\
  parse_money (PyStr (String "-" b)) = parse_money (PyStr b).
Proof.
  intros Hc. split.
  - unfold parse_money. simpl. rewrite !filter_app. simpl. rewrite Hc. reflexivity.
  - reflexivity.
Qed.

Lemma parse_money_ignores_other_characters_witness :
  parse_money (PyStr ("-1" ++ String "," "234.56")) =
  parse_money (PyStr ("-1" ++ "234.56")).
Proof.
  refine (proj1 (parse_money_ignores_other_characters "-1" "234.56" "," _)).
  reflexivity.
Defined.

(** ** The brand classifier *)









Lemma detect_brand_range (sku : cell) :
  In (detect_brand sku) ["Theonia EU"; "PupGrade EU"; "Cosy House EU"; "Other"].
Proof.
  unfold detect_brand, BRAND_MAP, first_match.
  destruct (re_match "^TH_" (py_str sku)); [simpl; tauto|].
  destruct (re_match "^EU-PG-" (py_str sku)); [simpl; tauto|].
  destruct (re_match "^EU-PC-B-" (py_str sku)); simpl; tauto.
Qed.

(** ** The aggregator *)

Lemma parsed_rows_brands (df : DataFrame) (brand : list string)
    (consumer b2b : list float) :
  parsed_rows df = OK (brand, consumer, b2b) ->
  exists sku, getitem df "SKU" = OK sku /\ brand = map detect_brand sku.
Proof.
  unfold parsed_rows.
  destruct (parsed_amounts df) as [[c0 b0]|e]; cbn [bind]; [|intros H; discriminate H].
  destruct (getitem df "SKU") as [sku|e]; cbn [bind]; [|intros H; discriminate H].
  intros H. injection H as <- _ _. exists sku. split; reflexivity.
Qed.

(** X6. A summary has one row per brand, and the brands are the three
    labels of [BRAND_MAP] and ["Other"]: every label of a summary is one of
    the four, no label occurs twice, and a summary has at most four rows,
    however many rows the report has. *)
Theorem summary_at_most_four_rows (df df' : DataFrame) (summary : Summary) :
  aggregate_sales df = (df', OK summary) ->
  (forall r, In r summary ->
             In (Brand r) ["Theonia EU"; "PupGrade EU"; "Cosy House EU"; "Other"]) /\
  NoDup (map Brand summary) /\
  (List.length summary <= 4)%nat.
Proof.
  intros H.
  destruct (aggregate_sales_inv df df' summary H)
    as (brand & consumer & b2b & Hp & _ & ->).
  destruct (parsed_rows_brands df brand consumer b2b Hp) as (sku & _ & Hb).
  assert (Hlab : forall r,
             In r (sort_values_desc
                     (groupby_sum brand consumer b2b (series_add consumer b2b))) ->
             In (Brand r) ["Theonia EU"; "PupGrade EU"; "Cosy House EU"; "Other"]).
  { intros r Hr. destruct (summary_row_fields _ _ _ _ r Hr) as (Hin & _).
    rewrite Hb in Hin. apply in_map_iff in Hin. destruct Hin as [v [<- _]].
    apply detect_brand_range. }
  assert (Hnd : NoDup (map Brand
                         (sort_values_desc
                            (groupby_sum brand consumer b2b
                                         (series_add consumer b2b))))).
  { apply (Permutation_NoDup
             (l := group_keys brand)); [|apply group_keys_nodup].
    rewrite <- (brands_of_groupby_sum brand consumer b2b (series_add consumer b2b)).
    apply Permutation_map, Permutation_sym, sort_values_desc_perm. }
  split; [exact Hlab|]. split; [exact Hnd|].
  rewrite <- (length_map Brand).
  apply (NoDup_incl_length
           (l' := ["Theonia EU"; "PupGrade EU"; "Cosy House EU"; "Other"]) Hnd).
  intros k Hk. apply in_map_iff in Hk. destruct Hk as [r [<- Hr]].
  exact (Hlab r Hr).
Qed.

Lemma summary_at_most_four_rows_witness :
  (List.length [mkRow "Theonia EU" 100 0 100; mkRow "Other" 10 0 10] <= 4)%nat.
Proof.
  refine (proj2 (proj2 (summary_at_most_four_rows
                          [("SKU", [PyStr "TH_1"; PyStr "ZZ"; PyStr "TH_2"; PyFloat nan]);
                           ("Ordered Product Sales",
                            [PyStr "€60.00"; PyStr "$4"; PyStr "40"; PyInt 6])]
                          (with_sales_columns
                             [("SKU", [PyStr "TH_1"; PyStr "ZZ"; PyStr "TH_2"; PyFloat nan]);
                              ("Ordered Product Sales",
                               [PyStr "€60.00"; PyStr "$4"; PyStr "40"; PyInt 6])]
                             ["Theonia EU"; "Other"; "Theonia EU"; "Other"]
                             [60; 4; 40; 6]%float [0; 0; 0; 0]%float)
                          [mkRow "Theonia EU" 100 0 100; mkRow "Other" 10 0 10] _))).
  vm_compute. reflexivity.
Defined.

Lemma aggregate_sales_resolver_fail (df : DataFrame) (e : exn) :
  find_sales_columns df = Raise e -> aggregate_sales df = (df, Raise e).
Proof.
  intros H. unfold aggregate_sales, bindM, reading. rewrite H. reflexivity.
Qed.

Lemma aggregate_sales_consumer_fail (df : DataFrame) (total_col : string)
    (b2b_col : option string) (e : exn) :
  find_sales_columns df = OK (total_col, b2b_col) ->
  (s <- getitem df total_col ;; apply parse_money s) = Raise e ->
  aggregate_sales df = (df, Raise e).
Proof.
  intros Hf Hc. unfold aggregate_sales, bindM, parse_column, reading.
  rewrite Hf, Hc. reflexivity.
Qed.

Lemma aggregate_sales_b2b_fail (df : DataFrame) (total_col c : string)
    (consumer : list float) (e : exn) :
  find_sales_columns df = OK (total_col, Some c) ->
  (s <- getitem df total_col ;; apply parse_money s) = OK consumer ->
  (s <- getitem df c ;; apply parse_money s) = Raise e ->
  aggregate_sales df =
  (setitem df "__sales_consumer" (map PyFloat consumer), Raise e).
Proof.
  intros Hf Hc Hb. unfold aggregate_sales, bindM, parse_column, reading, assign.
  pose proof (find_sales_columns_spec df) as Hspec. rewrite Hf in Hspec.
  destruct Hspec as (_ & _ & _ & Hbc).
  rewrite Hf, Hc.
  rewrite (getitem_setitem_other _ _ _ _ (b2b_column_not_consumer c Hbc)), Hb.
  reflexivity.
Qed.

Lemma parsed_amounts_ok (df : DataFrame) (total_col : string)
    (b2b_col : option string) (consumer b2b : list float) :
  find_sales_columns df = OK (total_col, b2b_col) ->
  (s <- getitem df total_col ;; apply parse_money s) = OK consumer ->
  match b2b_col with
  | Some c => s <- getitem df c ;; apply parse_money s
  | None =>
      OK (repeat 0%float
            (nrows (setitem df "__sales_consumer" (map PyFloat consumer))))
  end = OK b2b ->
  parsed_amounts df = OK (consumer, b2b).
Proof.
  intros Hf Hc Hb. unfold parsed_amounts. rewrite Hf. cbn [bind].
  rewrite Hc. cbn [bind]. rewrite Hb. reflexivity.
Qed.

Lemma apply_raise {A B : Type} (f : A -> result B) (l : list A) (e : exn) :
  apply f l = Raise e -> exists x, In x l /\ f x = Raise e.
Proof.
  induction l as [|x l IH]; simpl; [intros H; discriminate H|].
  destruct (f x) as [y|e0] eqn:Hx; simpl.
  - destruct (apply f l) as [ys|e1]; simpl; intros H; [discriminate H|].
    injection H as <-. destruct (IH eq_refl) as [x' [Hin Hx']].
    exists x'. split; [right; exact Hin | exact Hx'].
  - intros H. injection H as <-. exists x. split; [left; reflexivity | exact Hx].
Qed.

Lemma apply_first_raise {A B : Type} (f : A -> result B) (pre post : list A)
    (x : A) (e : exn) :
  (forall y, In y pre -> exists b, f y = OK b) ->
  f x = Raise e ->
  apply f (pre ++ x :: post) = Raise e.
Proof.
  intros Hpre Hx. induction pre as [|y pre IH]; simpl.
  - rewrite Hx. reflexivity.
  - destruct (Hpre y (or_introl eq_refl)) as [b ->]. simpl.
    rewrite IH; [reflexivity|].
    intros z Hz. apply Hpre. right. exact Hz.
Qed.

Lemma float_of_clean_raise (clean : string) (e : exn) :
  float_of_clean clean = Raise e ->
  e = ValueError ("could not convert string to float: '" ++ clean ++ "'").
Proof.
  unfold float_of_clean.
  destruct (Str.split_at "." clean) as [i r].
  destruct (_ && _); intros H; [discriminate H | injection H as <-; reflexivity].
Qed.

(** The exceptions of [parse_money]: the [ValueError] of [float] on the
    digits and periods of a string, the [OverflowError] of [float] on an
    integer. *)
Lemma parse_money_raise (v : cell) (e : exn) :
  parse_money v = Raise e ->
  (exists s, v = PyStr s /\
             e = ValueError ("could not convert string to float: '" ++
                             Str.filter is_money_char s ++ "'")) \/
  (exists z, v = PyInt z /\
             e = OverflowError "int too large to convert to float").
Proof.
  destruct v as [|z|f|s]; unfold parse_money; simpl.
  - intros H. discriminate H.
  - intros H. right. exists z. split; [reflexivity|].
    unfold float_of_int in H.
    destruct (binary_normalize prec emax z 0 false);
      first [discriminate H | injection H as <-; reflexivity].
  - destruct (is_nan f); intros H; discriminate H.
  - destruct (String.eqb (Str.filter is_money_char s) EmptyString);
      intros H; [discriminate H|].
    left. exists s. split; [reflexivity | exact (float_of_clean_raise _ _ H)].
Qed.

Lemma getitem_raise (df : DataFrame) (k : string) (e : exn) :
  getitem df k = Raise e -> e = KeyError k.
Proof.
  induction df as [|[name s0] df IH]; simpl.
  - intros H. injection H as <-. reflexivity.
  - destruct (String.eqb name k); [intros H; discriminate H | exact IH].
Qed.

(** What a call that fails leaves behind, step by step. *)
Lemma aggregate_sales_failure (df df' : DataFrame) (e : exn) :
  aggregate_sales df = (df', Raise e) ->
  (df' = df /\ find_sales_columns df = Raise e) \/
  (df' = df /\
   exists total_col b2b_col cells v,
     find_sales_columns df = OK (total_col, b2b_col) /\
     getitem df total_col = OK cells /\ In v cells /\ parse_money v = Raise e) \/
  (exists total_col c consumer cells v,
     find_sales_columns df = OK (total_col, Some c) /\
     (s <- getitem df total_col ;; apply parse_money s) = OK consumer /\
     (s <- getitem df c ;; apply parse_money s) = Raise e /\
     df' = setitem df "__sales_consumer" (map PyFloat consumer) /\
     getitem df c = OK cells /\ In v cells /\ parse_money v = Raise e) \/
  (exists consumer b2b,
     parsed_amounts df = OK (consumer, b2b) /\
     df' = with_amounts df consumer b2b /\
     ~ In "SKU" (columns df) /\ e = KeyError "SKU").
Proof.
  intros H.
  pose proof (find_sales_columns_spec df) as Hspec.
  destruct (find_sales_columns df) as [[total_col b2b_col]|e0] eqn:Hf.
  - destruct Hspec as (Hin & _ & Hb).
    destruct (getitem_present df total_col Hin) as [cells Hcells].
    destruct (apply parse_money cells) as [consumer|e1] eqn:Hc.
    + assert (Hc' : (s <- getitem df total_col ;; apply parse_money s) = OK consumer).
      { rewrite Hcells. exact Hc. }
      destruct (match b2b_col with
                | Some c => s <- getitem df c ;; apply parse_money s
                | None =>
                    OK (repeat 0%float
                          (nrows (setitem df "__sales_consumer"
                                          (map PyFloat consumer))))
                end) as [b2b|e2] eqn:Hb2.
      * pose proof (parsed_amounts_ok df _ _ _ _ Hf Hc' Hb2) as Ha.
        rewrite (aggregate_sales_after_amounts df consumer b2b Ha) in H.
        destruct (getitem df "SKU") as [sku|e3] eqn:Hsku; [discriminate H|].
        injection H as <- <-.
        right. right. right. exists consumer, b2b.
        pose proof (getitem_raise df "SKU" e3 Hsku) as ->.
        repeat split; try assumption.
        apply getitem_missing. exact Hsku.
      * destruct b2b_col as [c|]; [|discriminate Hb2].
        destruct Hb as [Hcin _].
        destruct (getitem_present df c Hcin) as [bcells Hbcells].
        rewrite (aggregate_sales_b2b_fail df total_col c consumer e2 Hf Hc' Hb2) in H.
        injection H as <- <-.
        pose proof Hb2 as Hb3.
        rewrite Hbcells in Hb3. cbn [bind] in Hb3.
        destruct (apply_raise _ _ _ Hb3) as [v [Hv Hpv]].
        right. right. left. exists total_col, c, consumer, bcells, v.
        repeat split; assumption.
    + assert (Hc' : (s <- getitem df total_col ;; apply parse_money s) = Raise e1).
      { rewrite Hcells. exact Hc. }
      rewrite (aggregate_sales_consumer_fail df total_col b2b_col e1 Hf Hc') in H.
      injection H as <- <-.
      destruct (apply_raise _ _ _ Hc) as [v [Hv Hpv]].
      right. left. split; [reflexivity|].
      exists total_col, b2b_col, cells, v. repeat split; assumption.
  - rewrite (aggregate_sales_resolver_fail df e0 Hf) in H.
    injection H as <- <-. left. split; reflexivity.
Qed.





(** X9. The first cell of the consumer column that [float] cannot read
    decides the outcome: its exception is the one raised and the table is
    left untouched, whatever the later cells, the B2B column and the SKU
    column hold. *)
Theorem first_unreadable_consumer_cell_is_raised (df : DataFrame)
    (total_col : string) (b2b_col : option string)
    (pre post : Series) (x : cell) (e : exn) :
  find_sales_columns df = OK (total_col, b2b_col) ->
  getitem df total_col = OK (pre ++ x :: post) ->
  (forall y, In y pre -> exists f, parse_money y = OK f) ->
  parse_money x = Raise e ->
  aggregate_sales df = (df, Raise e).
Proof.
  intros Hf Hcells Hpre Hx.
  apply (aggregate_sales_consumer_fail df total_col b2b_col e Hf).
  rewrite Hcells. cbn [bind].
  exact (apply_first_raise parse_money pre post x e Hpre Hx).
Qed.

Lemma first_unreadable_consumer_cell_is_raised_witness :
  aggregate_sales
    [("Ordered Product Sales", [PyStr "5"; PyStr "1.2.3"; PyStr "."]);
     ("Ordered Product Sales - B2B", [PyStr "4.5.6"; PyStr "1"; PyStr "2"])] =
  ([("Ordered Product Sales", [PyStr "5"; PyStr "1.2.3"; PyStr "."]);
    ("Ordered Product Sales - B2B", [PyStr "4.5.6"; PyStr "1"; PyStr "2"])],
   Raise (ValueError "could not convert string to float: '1.2.3'")).
Proof.
  apply (first_unreadable_consumer_cell_is_raised
           [("Ordered Product Sales", [PyStr "5"; PyStr "1.2.3"; PyStr "."]);
            ("Ordered Product Sales - B2B", [PyStr "4.5.6"; PyStr "1"; PyStr "2"])]
           "Ordered Product Sales" (Some "Ordered Product Sales - B2B")
           [PyStr "5"] [PyStr "."] (PyStr "1.2.3")).
  - reflexivity.
  - reflexivity.
  - intros y [<-|[]]. exists 5%float. reflexivity.
  - reflexivity.
Defined.

(** ** Calling the aggregator on the table it has changed *)

Lemma setitem_unchanged (df : DataFrame) (k : string) (v : Series) :
  getitem df k = OK v -> setitem df k v = df.
Proof.
  induction df as [|[name s0] df IH]; simpl.
  - intros H. discriminate H.
  - destruct (String.eqb name k).
    + intros H. injection H as ->. reflexivity.
    + intros H. rewrite (IH H). reflexivity.
Qed.

Lemma columns_setitem_extra (df : DataFrame) (k : string) (v : Series) :
  exists extra, columns (setitem df k v) = columns df ++ extra /\
                forall x, In x extra -> x = k.
Proof.
  rewrite columns_setitem.
  destruct (existsb (String.eqb k) (columns df)).
  - exists []. split; [rewrite app_nil_r; reflexivity | intros x []].
  - exists [k]. split; [reflexivity|]. intros x [<-|[]]. reflexivity.
Qed.

Lemma scan_unrecognised (extra : list string) (found : option string * option string) :
  (forall x, In x extra -> is_total_column x = false /\ is_b2b_column x = false) ->
  fold_left scan_column extra found = found.
Proof.
  revert found; induction extra as [|x extra IH]; intros [t b] H; cbn [fold_left].
  - reflexivity.
  - rewrite scan_column_eq.
    destruct (H x (or_introl eq_refl)) as [-> ->].
    apply IH. intros y Hy. apply H. right. exact Hy.
Qed.

Lemma find_sales_columns_setitem (df : DataFrame) (k : string) (v : Series) :
  is_total_column k = false -> is_b2b_column k = false ->
  find_sales_columns (setitem df k v) = find_sales_columns df.
Proof.
  intros Ht Hb. unfold find_sales_columns.
  destruct (columns_setitem_extra df k v) as (extra & -> & Hx).
  rewrite fold_left_app, scan_unrecognised; [reflexivity|].
  intros x Hin. rewrite (Hx x Hin). split; assumption.
Qed.

Lemma find_sales_columns_with_sales_columns (df : DataFrame) (brand : list string)
    (consumer b2b : list float) :
  find_sales_columns (with_sales_columns df brand consumer b2b) =
  find_sales_columns df.
Proof.
  unfold with_sales_columns, with_amounts.
  rewrite !find_sales_columns_setitem by reflexivity. reflexivity.
Qed.

Lemma getitem_with_sales_columns (df : DataFrame) (brand : list string)
    (consumer b2b : list float) :
  getitem (with_sales_columns df brand consumer b2b) "__sales_consumer" =
    OK (map PyFloat consumer) /\
  getitem (with_sales_columns df brand consumer b2b) "__sales_b2b" =
    OK (map PyFloat b2b) /\
  getitem (with_sales_columns df brand consumer b2b) "__sales_total" =
    OK (map PyFloat (series_add consumer b2b)) /\
  getitem (with_sales_columns df brand consumer b2b) "Brand" =
    OK (map PyStr brand).
Proof.
  unfold with_sales_columns, with_amounts. repeat split.
  - rewrite !getitem_setitem_other by discriminate. apply getitem_setitem_same.
  - rewrite !getitem_setitem_other by discriminate. apply getitem_setitem_same.
  - rewrite !getitem_setitem_other by discriminate. apply getitem_setitem_same.
  - apply getitem_setitem_same.
Qed.

Lemma getitem_with_sales_columns_other (df : DataFrame) (brand : list string)
    (consumer b2b : list float) (c : string) :
  c <> "__sales_consumer" -> c <> "__sales_b2b" -> c <> "__sales_total" ->
  c <> "Brand" ->
  getitem (with_sales_columns df brand consumer b2b) c = getitem df c.
Proof.
  intros H1 H2 H3 H4. unfold with_sales_columns, with_amounts.
  rewrite !getitem_setitem_other by congruence. reflexivity.
Qed.

Lemma recognised_column_not_written (c : string) :
  is_total_column c = true \/ is_b2b_column c = true ->
  c <> "__sales_consumer" /\ c <> "__sales_b2b" /\ c <> "__sales_total" /\
  c <> "Brand".
Proof.
  intros H. repeat split; intros E; subst c; destruct H as [H|H]; discriminate H.
Qed.

Lemma with_sales_columns_again (df : DataFrame) (brand : list string)
    (consumer b2b : list float) :
  with_sales_columns (with_sales_columns df brand consumer b2b) brand consumer b2b =
  with_sales_columns df brand consumer b2b.
Proof.
  destruct (getitem_with_sales_columns df brand consumer b2b) as (H1 & H2 & H3 & H4).
  set (df' := with_sales_columns df brand consumer b2b) in *.
  unfold with_sales_columns at 1, with_amounts.
  rewrite (setitem_unchanged df' _ _ H1), (setitem_unchanged df' _ _ H2),
          (setitem_unchanged df' _ _ H3), (setitem_unchanged df' _ _ H4).
  reflexivity.
Qed.

Lemma nrows_with_sales_columns (df : DataFrame) (brand : list string)
    (consumer b2b : list float) :
  List.length consumer = nrows df -> List.length b2b = nrows df ->
  List.length brand = nrows df ->
  nrows (with_sales_columns df brand consumer b2b) = nrows df.
Proof.
  intros Lc Lb Lr. unfold with_sales_columns, with_amounts.
  assert (N1 : nrows (setitem df "__sales_consumer" (map PyFloat consumer)) = nrows df).
  { apply nrows_setitem. rewrite length_map. exact Lc. }
  assert (N2 : nrows (setitem (setitem df "__sales_consumer" (map PyFloat consumer))
                              "__sales_b2b" (map PyFloat b2b)) = nrows df).
  { rewrite nrows_setitem; [exact N1|]. rewrite length_map, N1. exact Lb. }
  assert (N3 : nrows (setitem
                        (setitem (setitem df "__sales_consumer" (map PyFloat consumer))
                                 "__sales_b2b" (map PyFloat b2b))
                        "__sales_total" (map PyFloat (series_add consumer b2b)))
               = nrows df).
  { rewrite nrows_setitem; [exact N2|].
    rewrite length_map, N2, series_add_length; congruence. }
  rewrite nrows_setitem; [exact N3|]. rewrite length_map, N3. exact Lr.
Qed.

Lemma parsed_rows_inv (df : DataFrame) (brand : list string)
    (consumer b2b : list float) :
  parsed_rows df = OK (brand, consumer, b2b) ->
  exists total_col b2b_col sku,
    find_sales_columns df = OK (total_col, b2b_col) /\
    (s <- getitem df total_col ;; apply parse_money s) = OK consumer /\
    match b2b_col with
    | Some c => s <- getitem df c ;; apply parse_money s
    | None =>
        OK (repeat 0%float
              (nrows (setitem df "__sales_consumer" (map PyFloat consumer))))
    end = OK b2b /\
    getitem df "SKU" = OK sku /\
    brand = map detect_brand sku.
Proof.
  unfold parsed_rows, parsed_amounts.
  destruct (find_sales_columns df) as [[total_col b2b_col]|e]; cbn [bind];
    [|intros H; discriminate H].
  destruct (s <- getitem df total_col ;; apply parse_money s) as [c0|e] eqn:Hc;
    cbn [bind]; [|intros H; discriminate H].
  destruct (match b2b_col with
            | Some c => s <- getitem df c ;; apply parse_money s
            | None => _
            end) as [b0|e] eqn:Hb; cbn [bind]; [|intros H; discriminate H].
  destruct (getitem df "SKU") as [sku|e] eqn:Hs; cbn [bind];
    [|intros H; discriminate H].
  intros H. injection H as <- <- <-.
  exists total_col, b2b_col, sku. repeat split; assumption.
Qed.

Lemma parsed_rows_intro (df : DataFrame) (total_col : string)
    (b2b_col : option string) (sku : Series) (consumer b2b : list float) :
  find_sales_columns df = OK (total_col, b2b_col) ->
  (s <- getitem df total_col ;; apply parse_money s) = OK consumer ->
  match b2b_col with
  | Some c => s <- getitem df c ;; apply parse_money s
  | None =>
      OK (repeat 0%float
            (nrows (setitem df "__sales_consumer" (map PyFloat consumer))))
  end = OK b2b ->
  getitem df "SKU" = OK sku ->
  parsed_rows df = OK (map detect_brand sku, consumer, b2b).
Proof.
  intros Hf Hc Hb Hs. unfold parsed_rows.
  rewrite (parsed_amounts_ok df _ _ _ _ Hf Hc Hb). cbn [bind].
  rewrite Hs. reflexivity.
Qed.

(** X10. Aggregating again the table a call has changed gives the same
    summary and changes nothing more: the four columns the first call wrote
    are not recognised as money columns, and the second call writes the
    same values over them. *)
Theorem aggregate_sales_again (df df' : DataFrame) (summary : Summary) :
  rectangular df = true ->
  aggregate_sales df = (df', OK summary) ->
  aggregate_sales df' = (df', OK summary).
Proof.
  intros Hrect H.
  destruct (aggregate_sales_inv df df' summary H)
    as (brand & consumer & b2b & Hp & -> & ->).
  destruct (parsed_rows_lengths df brand consumer b2b Hrect Hp) as [Lc Lb].
  destruct (parsed_rows_inv df brand consumer b2b Hp)
    as (total_col & b2b_col & sku & Hf & Hc & Hb & Hsku & Hbrand).
  assert (Lr : List.length brand = nrows df).
  { rewrite Hbrand, length_map. exact (getitem_length df _ _ Hrect Hsku). }
  pose proof (find_sales_columns_spec df) as Hspec. rewrite Hf in Hspec.
  destruct Hspec as (_ & Ht & Hbc).
  destruct (recognised_column_not_written total_col (or_introl Ht))
    as (T1 & T2 & T3 & T4).
  set (df' := with_sales_columns df brand consumer b2b).
  assert (Hp' : parsed_rows df' = OK (brand, consumer, b2b)).
  { rewrite Hbrand. apply (parsed_rows_intro df' total_col b2b_col sku).
    - unfold df'. rewrite find_sales_columns_with_sales_columns. exact Hf.
    - unfold df'.
      rewrite (getitem_with_sales_columns_other df brand consumer b2b total_col
                 T1 T2 T3 T4).
      exact Hc.
    - destruct b2b_col as [c|].
      + destruct Hbc as [_ Hbc].
        destruct (recognised_column_not_written c (or_intror Hbc))
          as (B1 & B2 & B3 & B4).
        unfold df'.
        rewrite (getitem_with_sales_columns_other df brand consumer b2b c
                   B1 B2 B3 B4).
        exact Hb.
      + rewrite <- Hb. do 2 f_equal.
        assert (N : nrows df' = nrows df).
        { unfold df'. apply nrows_with_sales_columns; congruence. }
        rewrite !nrows_setitem; rewrite ?length_map; congruence.
    - unfold df'.
      rewrite (getitem_with_sales_columns_other df brand consumer b2b "SKU")
        by discriminate.
      exact Hsku. }
  rewrite (aggregate_sales_ok df' brand consumer b2b Hp').
  unfold df'. rewrite with_sales_columns_again. reflexivity.
Qed.

Lemma aggregate_sales_again_witness :
  aggregate_sales
    (with_sales_columns
       [("SKU", [PyStr "TH_1"; PyStr "ZZ"]);
        ("Ordered Product Sales", [PyStr "60"; PyStr "4"])]
       ["Theonia EU"; "Other"] [60; 4]%float [0; 0]%float) =
  (with_sales_columns
     [("SKU", [PyStr "TH_1"; PyStr "ZZ"]);
      ("Ordered Product Sales", [PyStr "60"; PyStr "4"])]
     ["Theonia EU"; "Other"] [60; 4]%float [0; 0]%float,
   OK [mkRow "Theonia EU" 60 0 60; mkRow "Other" 4 0 4]).
Proof.
  apply (aggregate_sales_again
           [("SKU", [PyStr "TH_1"; PyStr "ZZ"]);
            ("Ordered Product Sales", [PyStr "60"; PyStr "4"])]).
  - reflexivity.
  - vm_compute. reflexivity.
Defined.

(** ** When the aggregator succeeds *)




Lemma length_zero_nil {A : Type} (l : list A) : List.length l = O -> l = [].
Proof. destruct l; [reflexivity | intros H; discriminate H]. Qed.

(** X12. A report without rows.  On a (rectangular) table with a header
    and no rows the call goes through, provided the header has a consumer
    column and a SKU column, and returns the empty summary; and a summary
    is empty only for a table without rows. *)
Theorem summary_empty_iff_no_rows (df : DataFrame) :
  rectangular df = true ->
  (nrows df = O ->
   (exists c, In c (columns df) /\ is_total_column c = true) ->
   In "SKU" (columns df) ->
   exists df', aggregate_sales df = (df', OK [])) /\
  (forall df' summary,
      aggregate_sales df = (df', OK summary) ->
      (summary = [] <-> nrows df = O)).
Proof.
  intros Hrect.
  assert (Hempty : forall brand consumer b2b,
             parsed_rows df = OK (brand, consumer, b2b) ->
             (sort_values_desc
                (groupby_sum brand consumer b2b (series_add consumer b2b)) = [] <->
              nrows df = O)).
  { intros brand consumer b2b Hp.
    destruct (parsed_rows_inv df brand consumer b2b Hp)
      as (_ & _ & sku & _ & _ & _ & Hsku & Hbrand).
    rewrite <- (getitem_length df "SKU" sku Hrect Hsku).
    split.
    - intros Hs.
      assert (Hk : group_keys brand = []).
      { apply length_zero_nil.
        rewrite <- (brands_of_groupby_sum brand consumer b2b
                      (series_add consumer b2b)), length_map.
        rewrite <- (Permutation_length (sort_values_desc_perm _)), Hs.
        reflexivity. }
      destruct sku as [|v sku]; [reflexivity|].
      exfalso. rewrite Hbrand in Hk.
      assert (Hin : In (detect_brand v) (group_keys (map detect_brand (v :: sku)))).
      { apply in_group_keys. left. reflexivity. }
      rewrite Hk in Hin. exact Hin.
    - intros Hl. apply length_zero_nil in Hl. subst sku. subst brand. reflexivity. }
  split.
  - intros Hn [c0 [Hc0 Ht0]] Hsku.
    pose proof (find_sales_columns_spec df) as Hspec.
    destruct (find_sales_columns df) as [[total_col b2b_col]|e] eqn:Hf.
    + destruct Hspec as (Hin & _ & Hbc).
      destruct (getitem_present df total_col Hin) as [cells Hcells].
      pose proof (getitem_length df _ _ Hrect Hcells) as Lc. rewrite Hn in Lc.
      apply length_zero_nil in Lc. subst cells.
      destruct (getitem_present df "SKU" Hsku) as [sku Hs].
      pose proof (getitem_length df _ _ Hrect Hs) as Ls. rewrite Hn in Ls.
      apply length_zero_nil in Ls. subst sku.
      assert (Hc : (s <- getitem df total_col ;; apply parse_money s) = OK []).
      { rewrite Hcells. reflexivity. }
      assert (Hb : match b2b_col with
                   | Some c => s <- getitem df c ;; apply parse_money s
                   | None =>
                       OK (repeat 0%float
                             (nrows (setitem df "__sales_consumer" (map PyFloat []))))
                   end = OK []).
      { destruct b2b_col as [c|].
        - destruct Hbc as [Hcin _].
          destruct (getitem_present df c Hcin) as [bcells Hbcells].
          pose proof (getitem_length df _ _ Hrect Hbcells) as Lb. rewrite Hn in Lb.
          apply length_zero_nil in Lb. subst bcells. rewrite Hbcells. reflexivity.
        - rewrite nrows_setitem, Hn; [reflexivity|]. rewrite Hn. reflexivity. }
      pose proof (parsed_rows_intro df total_col b2b_col [] [] [] Hf Hc Hb Hs) as Hp.
      eexists. rewrite (aggregate_sales_ok df _ _ _ Hp). reflexivity.
    + destruct Hspec as [_ Hno]. rewrite (Hno c0 Hc0) in Ht0. discriminate Ht0.
  - intros df' summary H.
    destruct (aggregate_sales_inv df df' summary H)
      as (brand & consumer & b2b & Hp & _ & ->).
    exact (Hempty brand consumer b2b Hp).
Qed.

Lemma summary_empty_iff_no_rows_witness :
  exists df',
    aggregate_sales [("SKU", []); ("Ordered Product Sales", []); ("Title", [])] =
    (df', OK []).
Proof.
  apply (summary_empty_iff_no_rows
           [("SKU", []); ("Ordered Product Sales", []); ("Title", [])]).
  - reflexivity.
  - reflexivity.
  - exists "Ordered Product Sales". split; [right; left; reflexivity | reflexivity].
  - left. reflexivity.
Defined.

(** ** The page *)

Lemma digit_char_value (d : Z) :
  (0 <= d < 10)%Z ->
  Str.is_digit (Repr.digit_char d) = true /\
  (Z.of_nat (nat_of_ascii (Repr.digit_char d)) - 48)%Z = d.
Proof.
  intros H.
  assert (C : (d = 0 \/ d = 1 \/ d = 2 \/ d = 3 \/ d = 4 \/ d = 5 \/ d = 6 \/
               d = 7 \/ d = 8 \/ d = 9)%Z) by lia.
  repeat (destruct C as [-> | C]; [split; reflexivity|]).
  subst d. split; reflexivity.
Qed.

Lemma digits_value_shift (s : string) :
  forall a, Str.digits_value a s =
            (a * 10 ^ Z.of_nat (String.length s) + Str.digits_value 0 s)%Z.
Proof.
  induction s as [|c s IH]; intros a.
  - simpl. lia.
  - change (Str.digits_value a (String c s))
      with (Str.digits_value (10 * a + (Z.of_nat (nat_of_ascii c) - 48)) s).
    change (Str.digits_value 0 (String c s))
      with (Str.digits_value (10 * 0 + (Z.of_nat (nat_of_ascii c) - 48)) s).
    rewrite (IH (10 * a + (Z.of_nat (nat_of_ascii c) - 48))%Z).
    rewrite (IH (10 * 0 + (Z.of_nat (nat_of_ascii c) - 48))%Z).
    change (String.length (String c s)) with (S (String.length s)).
    rewrite Nat2Z.inj_succ, Z.pow_succ_r by lia. lia.
Qed.

Lemma digits_value_app (a b : string) (acc : Z) :
  Str.digits_value acc (a ++ b) = Str.digits_value (Str.digits_value acc a) b.
Proof.
  revert acc; induction a as [|c a' IH]; intros acc; simpl; [reflexivity | apply IH].
Qed.

(** [digits_of] writes the decimal digits of [n] in front of [acc]. *)
Lemma digits_of_spec (fuel : nat) :
  forall n acc,
    (0 <= n < 10 ^ Z.of_nat fuel)%Z ->
    Str.forallb Str.is_digit acc = true ->
    Str.forallb Str.is_digit (Repr.digits_of fuel n acc) = true /\
    Str.digits_value 0 (Repr.digits_of fuel n acc) =
    (n * 10 ^ Z.of_nat (String.length acc) + Str.digits_value 0 acc)%Z.
Proof.
  induction fuel as [|fuel IH]; intros n acc Hn Hacc.
  - simpl in *. split; [exact Hacc|]. assert (n = 0)%Z by lia. subst n. lia.
  - assert (Hd : (0 <= n mod 10 < 10)%Z) by (apply Z.mod_pos_bound; lia).
    destruct (digit_char_value (n mod 10) Hd) as [Hdig Hval].
    change (Repr.digits_of (S fuel) n acc)
      with (if (n <? 10)%Z then String (Repr.digit_char (n mod 10)) acc
            else Repr.digits_of fuel (n / 10)
                   (String (Repr.digit_char (n mod 10)) acc)).
    remember (Repr.digit_char (n mod 10)) as c eqn:Ec.
    assert (Hacc' : Str.forallb Str.is_digit (String c acc) = true).
    { simpl. rewrite Hdig. exact Hacc. }
    assert (Hv' : Str.digits_value 0 (String c acc) =
                  (n mod 10 * 10 ^ Z.of_nat (String.length acc) +
                   Str.digits_value 0 acc)%Z).
    { simpl Str.digits_value. rewrite Hval, digits_value_shift. lia. }
    destruct (n <? 10)%Z eqn:E.
    + apply Z.ltb_lt in E. split; [exact Hacc'|].
      rewrite Hv', Z.mod_small by lia. reflexivity.
    + apply Z.ltb_ge in E.
      assert (Hn' : (0 <= n / 10 < 10 ^ Z.of_nat fuel)%Z).
      { rewrite Nat2Z.inj_succ, Z.pow_succ_r in Hn by lia.
        split; [apply Z.div_pos; lia|].
        apply Z.div_lt_upper_bound; lia. }
      destruct (IH (n / 10)%Z _ Hn' Hacc') as [Hf Hv].
      split; [exact Hf|]. rewrite Hv, Hv'.
      change (String.length (String c acc)) with (S (String.length acc)).
      rewrite Nat2Z.inj_succ, Z.pow_succ_r by lia.
      pose proof (Z.div_mod n 10 ltac:(lia)) as Hdm.
      nia.
Qed.

(** [of_nonneg] writes a natural number in decimal digits. *)
Lemma of_nonneg_spec (n : Z) :
  (0 <= n)%Z ->
  Str.forallb Str.is_digit (Repr.of_nonneg n) = true /\
  Str.digits_value 0 (Repr.of_nonneg n) = n.
Proof.
  intros Hn. unfold Repr.of_nonneg.
  assert (Hfuel : (0 <= n < 10 ^ Z.of_nat (S (Z.to_nat (Z.log2 n))))%Z).
  { split; [exact Hn|].
    rewrite Nat2Z.inj_succ, Z2Nat.id by apply Z.log2_nonneg.
    destruct (Z.eq_dec n 0) as [->|Hne].
    - simpl. lia.
    - pose proof (Z.log2_spec n ltac:(lia)) as [_ Hup].
      apply Z.lt_le_trans with (1 := Hup).
      apply Z.pow_le_mono_l. pose proof (Z.log2_nonneg n). lia. }
  destruct (digits_of_spec _ n EmptyString Hfuel eq_refl) as [Hf Hv].
  split; [exact Hf|]. rewrite Hv. simpl. lia.
Qed.

Lemma filter_digits (s : string) :
  Str.forallb Str.is_digit s = true -> Str.filter is_money_char s = s.
Proof.
  induction s as [|c s IH]; simpl; [reflexivity|].
  intros H. apply andb_prop in H. destruct H as [Hc Hs].
  assert (Hm : is_money_char c = true)
    by (unfold is_money_char; rewrite Hc; reflexivity).
  rewrite Hm, (IH Hs). reflexivity.
Qed.

Lemma filter_group_from (s : string) :
  forall remaining,
    Str.filter is_money_char (Fmt.group_from remaining s) =
    Str.filter is_money_char s.
Proof.
  induction s as [|c s IH]; intros remaining; [reflexivity|].
  change (Fmt.group_from remaining (String c s))
    with (String c
            (if negb (Nat.eqb (Nat.pred remaining) 0) &&
                Nat.eqb (Nat.modulo (Nat.pred remaining) 3) 0
             then String "," (Fmt.group_from (Nat.pred remaining) s)
             else Fmt.group_from (Nat.pred remaining) s)).
  change (Str.filter is_money_char (String c s))
    with (if is_money_char c then String c (Str.filter is_money_char s)
          else Str.filter is_money_char s).
  rewrite <- (IH (Nat.pred remaining)).
  destruct (negb (Nat.eqb (Nat.pred remaining) 0) &&
            Nat.eqb (Nat.modulo (Nat.pred remaining) 3) 0); reflexivity.
Qed.

Lemma cents_nonneg (m : positive) (e : Z) : (0 <= Fmt.cents m e)%Z.
Proof.
  unfold Fmt.cents.
  destruct (0 <=? e)%Z eqn:E.
  - apply Z.leb_le in E. pose proof (Z.pow_pos_nonneg 2 e ltac:(lia) E). nia.
  - assert (Hden : (0 < 2 ^ (- e))%Z).
    { apply Z.pow_pos_nonneg; [lia|]. apply Z.leb_gt in E. lia. }
    assert (Hq : (0 <= Z.pos m * 100 / 2 ^ (- e))%Z) by (apply Z.div_pos; lia).
    destruct (2 * ((Z.pos m * 100) mod 2 ^ (- e)) ?= 2 ^ (- e))%Z; try lia.
    destruct (Z.even _); lia.
Qed.

(** The text [format(total, ',.2f')] behind a euro sign, read by
    [parse_money]: the hundredths the text shows, the sign dropped; 0.0 for a
    zero, a NaN or an infinity. *)
Lemma fixed2_parse_money (total : float) :
  parse_money (PyStr ("€" ++ Fmt.fixed2 total)) =
  match Prim2SF total with
  | S754_finite _ m e => OK (Flt.of_decimal (Fmt.cents m e) 2)
  | _ => OK 0%float
  end.
Proof.
  unfold Fmt.fixed2.
  destruct (Prim2SF total) as [[|]|[|]| |s m e]; try reflexivity.
  pose proof (cents_nonneg m e) as Hn.
  set (n := Fmt.cents m e) in *.
  assert (Ha : (0 <= n / 100)%Z) by (apply Z.div_pos; lia).
  destruct (of_nonneg_spec (n / 100) Ha) as [Hdig Hval].
  assert (H1 : (0 <= n mod 100 / 10 < 10)%Z).
  { pose proof (Z.mod_pos_bound n 100 ltac:(lia)).
    split; [apply Z.div_pos; lia | apply Z.div_lt_upper_bound; lia]. }
  assert (H2 : (0 <= n mod 10 < 10)%Z) by (apply Z.mod_pos_bound; lia).
  destruct (digit_char_value _ H1) as [D1 V1].
  destruct (digit_char_value _ H2) as [D2 V2].
  remember (Repr.digit_char (n mod 100 / 10)) as c1 eqn:Ec1.
  remember (Repr.digit_char (n mod 10)) as c2 eqn:Ec2.
  remember (Repr.of_nonneg (n / 100)) as i eqn:Ei.
  set (f := String c1 (String c2 EmptyString)).
  assert (Hf : Str.forallb Str.is_digit f = true).
  { unfold f. simpl. rewrite D1, D2. reflexivity. }
  assert (Hclean : Str.filter is_money_char
                     ("€" ++ (if s then "-" else "") ++ Fmt.group i ++ "." ++ f) =
                   (i ++ String "." f)%string).
  { assert (Hrest : Str.filter is_money_char (Fmt.group i ++ "." ++ f) =
                    (i ++ String "." f)%string).
    { rewrite filter_app. unfold Fmt.group.
      rewrite filter_group_from, (filter_digits i Hdig).
      change ("." ++ f)%string with (String "." f).
      change (Str.filter is_money_char (String "." f))
        with (String "." (Str.filter is_money_char f)).
      rewrite (filter_digits f Hf). reflexivity. }
    destruct s; exact Hrest. }
  unfold parse_money. simpl pd_isna. cbv iota. rewrite Hclean.
  destruct (String.eqb_spec (i ++ String "." f) EmptyString) as [E|_].
  { destruct i; discriminate E. }
  assert (Hne : (i ++ f)%string <> EmptyString).
  { unfold f. destruct i; discriminate. }
  rewrite (float_of_clean_decimal i (Some f) Hdig Hf Hne).
  do 2 f_equal.
  rewrite digits_value_app, Hval.
  change (Str.digits_value (n / 100) f)
    with (10 * (10 * (n / 100) + (Z.of_nat (nat_of_ascii c1) - 48)) +
          (Z.of_nat (nat_of_ascii c2) - 48))%Z.
  rewrite V1, V2.
  pose proof (Z.div_mod n 100 ltac:(lia)) as E1.
  pose proof (Z.mod_pos_bound n 100 ltac:(lia)) as B1.
  pose proof (Z.div_mod (n mod 100) 10 ltac:(lia)) as E2.
  pose proof (Z.mod_pos_bound (n mod 100) 10 ltac:(lia)) as B2.
  pose proof (Z.div_mod n 10 ltac:(lia)) as E3.
  lia.
Qed.

(** X13. A tile read back.  Every tile of the page is the tile of a row of
    the summary, labelled with its brand, and [parse_money] reads its value
    without an error: for a finite total other than zero it gives the float
    nearest to the hundredths [format] rounded the total to, without the
    sign (the tile of a negative total reads as a positive amount); the
    tile of a zero, a NaN or an infinite total reads as 0.0. *)
Theorem tile_reads_back (summary_df : Summary) (label value : string) :
  In (st_metric label value) (metrics summary_df) ->
  exists row,
    In row summary_df /\ label = Brand row /\
    parse_money (PyStr value) =
    match Prim2SF (Total_Sales row) with
    | S754_finite _ m e => OK (Flt.of_decimal (Fmt.cents m e) 2)
    | _ => OK 0%float
    end.
Proof.
  intros H. unfold metrics in H. apply in_map_iff in H.
  destruct H as [row [E Hrow]]. injection E as <- <-.
  exists row. split; [exact Hrow|]. split; [reflexivity|].
  apply fixed2_parse_money.
Qed.

Lemma tile_reads_back_witness :
  exists row,
    In row [mkRow "Theonia EU" 1234.5 0 1234.5; mkRow "Other" (-10) 0 (-10)] /\
    "Other" = Brand row /\
    parse_money (PyStr "€-10.00") =
    match Prim2SF (Total_Sales row) with
    | S754_finite _ m e => OK (Flt.of_decimal (Fmt.cents m e) 2)
    | _ => OK 0%float
    end.
Proof.
  refine (tile_reads_back
            [mkRow "Theonia EU" 1234.5 0 1234.5; mkRow "Other" (-10) 0 (-10)]
            "Other" "€-10.00" _).
  vm_compute. right. left. reflexivity.
Defined.

(** X14. What the page shows when the report cannot be processed.  When
    [aggregate_sales] raises, the page shows one error line and nothing
    else (no success line, no table, no tile).  Its text is
    ["Error processing file: "] followed by the text of the exception, one
    of four: the sentence about the missing column; ['SKU'], the name in
    quotes and nothing more, when the table has no SKU column; the message
    of [float] with the digits and periods of a cell; the message of
    [float] on an integer that is too large. *)
Theorem page_error_text (df df' : DataFrame) (e : exn) :
  aggregate_sales df = (df', Raise e) ->
  exists msg,
    page (Some df) = [st_error ("Error processing file: " ++ msg)] /\
    (msg = "Couldn't find 'Ordered Product Sales' column." \/
     (msg = "'SKU'" /\ ~ In "SKU" (columns df)) \/
     (exists s, msg = ("could not convert string to float: '" ++
                       Str.filter is_money_char s ++ "'")%string) \/
     msg = "int too large to convert to float").
Proof.
  intros H. exists (Exn.text e). split.
  { unfold page, report. rewrite H. reflexivity. }
  assert (Hcell : forall v, parse_money v = Raise e ->
            (exists s, Exn.text e =
                       ("could not convert string to float: '" ++
                        Str.filter is_money_char s ++ "'")%string) \/
            Exn.text e = "int too large to convert to float").
  { intros v Hp.
    destruct (parse_money_raise v e Hp) as [[s [_ ->]]|[z [_ ->]]].
    - left. exists s. reflexivity.
    - right. reflexivity. }
  destruct (aggregate_sales_failure df df' e H)
    as [[_ Hf]|[[_ (t & b & cells & v & _ & _ & _ & Hp)]
               |[(t & c & consumer & cells & v & _ & _ & _ & _ & _ & _ & Hp)
                |(consumer & b2b & _ & _ & Hsku & ->)]]].
  - left. pose proof (find_sales_columns_spec df) as Hspec.
    rewrite Hf in Hspec. destruct Hspec as [-> _]. reflexivity.
  - right. right. exact (Hcell v Hp).
  - right. right. exact (Hcell v Hp).
  - right. left. split; [reflexivity | exact Hsku].
Qed.

Lemma page_error_text_witness :
  exists msg,
    page (Some [("Ordered Product Sales", [PyStr "1.2.3"])]) =
    [st_error ("Error processing file: " ++ msg)] /\
    (msg = "Couldn't find 'Ordered Product Sales' column." \/
     (msg = "'SKU'" /\
      ~ In "SKU" (columns [("Ordered Product Sales", [PyStr "1.2.3"])])) \/
     (exists s, msg = ("could not convert string to float: '" ++
                       Str.filter is_money_char s ++ "'")%string) \/
     msg = "int too large to convert to float").
Proof.
  refine (page_error_text
            [("Ordered Product Sales", [PyStr "1.2.3"])]
            [("Ordered Product Sales", [PyStr "1.2.3"])]
            (ValueError "could not convert string to float: '1.2.3'") _).
  vm_compute. reflexivity.
Defined.
